(** * cursor-trade-bot: the price predictor service (src/services/ml/predict.py)

    A shallow embedding of [PricePredictor] and of the command-line entry
    point, with the properties of the feature pipeline, of the training-set
    construction, of the mock prediction and of the error handling.

    Numbers are IEEE-754 binary64 values, as they are in the program
    (Python [float], NumPy [float64]); they are modelled by the Standard
    Library's [spec_float] at precision 53 and maximal exponent 1024, so that
    not-a-number, the infinities and the signed zeros behave as they do at
    run time.  *)

From Stdlib Require Import String Ascii DecimalString ZArith List Bool Lia PeanoNat.
From Stdlib Require Import Floats.SpecFloat.
Import ListNotations.

Set Implicit Arguments.

(** ** Binary64 arithmetic *)

Module Float64.

Definition float := spec_float.

Definition prec : Z := 53.
Definition emax : Z := 1024.

Definition add : float -> float -> float := SFadd prec emax.
Definition sub : float -> float -> float := SFsub prec emax.
Definition mul : float -> float -> float := SFmul prec emax.
Definition div : float -> float -> float := SFdiv prec emax.
Definition sqrt : float -> float := SFsqrt prec emax.

(** Conversion of an integer (Python [int] mixed with a [float]). *)
Definition of_Z (z : Z) : float := binary_normalize prec emax z 0 false.
Definition of_nat (n : nat) : float := of_Z (Z.of_nat n).

Definition nan : float := S754_nan.
Definition zero : float := S754_zero false.

Definition isnan (x : float) : bool :=
  match x with S754_nan => true | _ => false end.

Definition isinf (x : float) : bool :=
  match x with S754_infinity _ => true | _ => false end.

(** [numpy.isfinite]: neither not-a-number nor an infinity. *)
Definition isfinite (x : float) : bool :=
  match x with S754_zero _ | S754_finite _ _ _ => true | _ => false end.

Definition iszero (x : float) : bool :=
  match x with S754_zero _ => true | _ => false end.

(** A number (not not-a-number) whose sign bit is [s]. *)
Definition has_sign (s : bool) (x : float) : bool :=
  match x with
  | S754_zero s' | S754_infinity s' | S754_finite s' _ _ => Bool.eqb s' s
  | S754_nan => false
  end.

(** The sign bit is clear: [+0], a positive number or [+inf]. *)
Definition nonneg (x : float) : bool := has_sign false x.


(** Left-to-right sum starting from [+0]. *)
Definition fsum (xs : list float) : float := fold_left add xs zero.

Definition opp : float -> float := SFopp.
Definition eqb : float -> float -> bool := SFeqb.
Definition ltb : float -> float -> bool := SFltb.
Definition leb : float -> float -> bool := SFleb.

(** The sign bit, as C's [signbit] reads it. *)
Definition signbit (x : float) : bool :=
  match x with
  | S754_zero s | S754_infinity s | S754_finite s _ _ => s
  | S754_nan => false
  end.

End Float64.

Import Float64.

(** ** The pandas operations used by the feature pipeline

    A column ([Series]) is the list of its values in row order.
    [rolling(window=w)] has [min_periods = w]: the aggregate at row [i] is
    defined only when the [w] rows ending at [i] exist and all hold a valid
    value, where a rolling aggregate takes an infinite value for a missing
    one.  The values of the aggregates follow the library's running update
    (pandas 1.5 and later): the mean keeps a compensated sum to which each
    row is added and from which the row leaving the window is removed, the
    variance keeps a running mean and a running sum of squared differences.
    An overflow of a running sum therefore spoils the rows after it. *)

Definition Series := list float.

Module Pandas.

(** The [w] values ending at row [i], when there are [w] valid ones. *)
Definition window (w : nat) (xs : Series) (i : nat) : option (list float) :=
  if (i + 1 <? w)%nat then None
  else
    let win := firstn w (skipn (i + 1 - w) xs) in
    if forallb isfinite win then Some win else None.

(** The column as a rolling aggregate reads it. *)
Definition rolling_values (xs : Series) : Series :=
  map (fun x => if isinf x then nan else x) xs.

(** *** Rolling mean ([roll_mean]) *)

Record mean_state := mk_mean_state {
  sum_x : float;
  neg_ct : nat;
  compensation_add : float;
  compensation_remove : float;
  num_consecutive_same_value : nat;
  prev_value : float
}.

(** [add_mean]: Kahan summation; a missing value is skipped. *)
Definition add_mean (val : float) (st : mean_state) : mean_state :=
  if isnan val then st
  else
    let y := sub val (compensation_add st) in
    let t := add (sum_x st) y in
    mk_mean_state t
      (if signbit val then S (neg_ct st) else neg_ct st)
      (sub (sub t (sum_x st)) y)
      (compensation_remove st)
      (if eqb val (prev_value st)
       then S (num_consecutive_same_value st) else 1%nat)
      val.

(** [remove_mean] *)
Definition remove_mean (val : float) (st : mean_state) : mean_state :=
  if isnan val then st
  else
    let y := sub (opp val) (compensation_remove st) in
    let t := add (sum_x st) y in
    mk_mean_state t
      (if signbit val then Nat.pred (neg_ct st) else neg_ct st)
      (compensation_add st)
      (sub (sub t (sum_x st)) y)
      (num_consecutive_same_value st)
      (prev_value st).

(** [calc_mean] on a full window, where the number of observations is [w]. *)
Definition calc_mean (w : nat) (st : mean_state) : float :=
  let result := div (sum_x st) (of_nat w) in
  if (w <=? num_consecutive_same_value st)%nat then prev_value st
  else if (neg_ct st =? 0)%nat && ltb result zero then zero
  else if (neg_ct st =? w)%nat && ltb zero result then zero
  else result.

(** The states after each row: the row leaving the window is removed, the
    new row is added. *)
Fixpoint mean_scan (w : nat) (vals : Series) (i : nat) (rest : Series)
    (st : mean_state) : list mean_state :=
  match rest with
  | [] => []
  | x :: rest' =>
      let st0 :=
        if (w <=? i)%nat then remove_mean (nth (i - w) vals nan) st else st in
      let st' := add_mean x st0 in
      st' :: mean_scan w vals (S i) rest' st'
  end.

(** The state before the first row; the last value seen starts as the
    first value. *)
Definition mean_init (vals : Series) : mean_state :=
  mk_mean_state zero 0 zero zero 0 (nth 0 vals nan).

Definition mean_states (w : nat) (xs : Series) : list mean_state :=
  let vals := rolling_values xs in
  mean_scan w vals 0 vals (mean_init vals).

(** *** Rolling variance ([roll_var]) *)

Record var_state := mk_var_state {
  nobs : nat;
  mean_x : float;
  ssqdm_x : float;
  var_compensation_add : float;
  var_compensation_remove : float;
  var_same_value : nat;
  var_prev_value : float
}.

(** [add_var]: Welford's update with a compensated difference. *)
Definition add_var (val : float) (st : var_state) : var_state :=
  if isnan val then st
  else
    let n := S (nobs st) in
    let prev_mean := sub (mean_x st) (var_compensation_add st) in
    let y := sub val (var_compensation_add st) in
    let t := sub y (mean_x st) in
    let mean' := add (mean_x st) (div t (of_nat n)) in
    mk_var_state n mean'
      (add (ssqdm_x st) (mul (sub val prev_mean) (sub val mean')))
      (sub (add t (mean_x st)) y)
      (var_compensation_remove st)
      (if eqb val (var_prev_value st) then S (var_same_value st) else 1%nat)
      val.

(** [remove_var] *)
Definition remove_var (val : float) (st : var_state) : var_state :=
  if isnan val then st
  else
    let n := Nat.pred (nobs st) in
    if (n =? 0)%nat then
      mk_var_state n zero zero (var_compensation_add st)
        (var_compensation_remove st) (var_same_value st) (var_prev_value st)
    else
      let prev_mean := sub (mean_x st) (var_compensation_remove st) in
      let y := sub val (var_compensation_remove st) in
      let t := sub y (mean_x st) in
      let mean' := sub (mean_x st) (div t (of_nat n)) in
      mk_var_state n mean'
        (sub (ssqdm_x st) (mul (sub val prev_mean) (sub val mean')))
        (var_compensation_add st)
        (sub (add t (mean_x st)) y)
        (var_same_value st) (var_prev_value st).

(** [calc_var] with [ddof = 1] on a full window of [w] observations. *)
Definition calc_var (w : nat) (st : var_state) : float :=
  if (w <=? 1)%nat then nan
  else if (w <=? var_same_value st)%nat then zero
  else div (ssqdm_x st) (of_nat (w - 1)).

Fixpoint var_scan (w : nat) (vals : Series) (i : nat) (rest : Series)
    (st : var_state) : list var_state :=
  match rest with
  | [] => []
  | x :: rest' =>
      let st0 :=
        if (w <=? i)%nat then remove_var (nth (i - w) vals nan) st else st in
      let st' := add_var x st0 in
      st' :: var_scan w vals (S i) rest' st'
  end.

Definition var_init (vals : Series) : var_state :=
  mk_var_state 0 zero zero zero zero 0 (nth 0 vals nan).

Definition var_states (w : nat) (xs : Series) : list var_state :=
  let vals := rolling_values xs in
  var_scan w vals 0 vals (var_init vals).

(** [zsqrt]: the square root, with zero for a negative argument. *)
Definition zsqrt (x : float) : float :=
  if ltb x zero then zero else sqrt x.

(** The aggregate of row [i]: undefined without a full window. *)
Definition rolling_at {S : Type} (calc : nat -> S -> float) (w : nat)
    (xs : Series) (i : nat) (st : S) : float :=
  match window w xs i with
  | Some _ => calc w st
  | None => nan
  end.

(** [xs.rolling(window=w).mean()] *)
Definition rolling_mean (w : nat) (xs : Series) : Series :=
  map (fun ist : nat * mean_state =>
         rolling_at calc_mean w xs (fst ist) (snd ist))
      (combine (seq 0 (length xs)) (mean_states w xs)).

(** [xs.rolling(window=w).std()] *)
Definition rolling_std (w : nat) (xs : Series) : Series :=
  map (fun ist : nat * var_state =>
         rolling_at (fun w st => zsqrt (calc_var w st)) w xs (fst ist) (snd ist))
      (combine (seq 0 (length xs)) (var_states w xs)).

(** [xs.shift(1)]: every value moves one row down, the first is undefined. *)
Definition shift1 (xs : Series) : Series :=
  match xs with
  | [] => []
  | _ :: _ => nan :: removelast xs
  end.

(** [xs.shift(-1)]: every value moves one row up, the last is undefined. *)
Definition shift_neg1 (xs : Series) : Series :=
  match xs with
  | [] => []
  | _ :: t => t ++ [nan]
  end.

(** Forward fill: an undefined value takes the last defined one before it. *)
Fixpoint ffill_from (last : float) (xs : Series) : Series :=
  match xs with
  | [] => []
  | x :: t =>
      if isnan x then last :: ffill_from last t else x :: ffill_from x t
  end.

Definition ffill (xs : Series) : Series := ffill_from nan xs.

(** [xs.pct_change()]: [data / data.shift(1) - 1].  Library versions with
    the default [fill_method='pad'] forward-fill the column first
    ([pad = true]); later versions do not ([pad = false]). *)
Definition pct_change (pad : bool) (xs : Series) : Series :=
  let data := if pad then ffill xs else xs in
  map (fun p => sub (div (fst p) (snd p)) (of_Z 1))
      (combine data (shift1 data)).

End Pandas.

(** ** Tables

    The raw table has one row per timestamp (the index label) with the five
    columns [open], [high], [low], [close], [volume]; the feature table has
    the five derived columns as well. *)

Record bar := mk_bar {
  ts : string;
  open : float;
  high : float;
  low : float;
  close : float;
  volume : float
}.

Record feature_row := mk_feature_row {
  base : bar;
  SMA_5 : float;
  SMA_20 : float;
  price_momentum : float;
  volume_momentum : float;
  volatility : float
}.

Definition DataFrame := list bar.
Definition FeatureFrame := list feature_row.

(** The values of a row, in column order. *)
Definition base_values (b : bar) : list float :=
  [open b; high b; low b; close b; volume b].

Definition derived_values (r : feature_row) : list float :=
  [SMA_5 r; SMA_20 r; price_momentum r; volume_momentum r; volatility r].

Definition row_values (r : feature_row) : list float :=
  base_values (base r) ++ derived_values r.

(** All five derived features of the row are defined. *)
Definition derived_defined (r : feature_row) : bool :=
  negb (existsb isnan (derived_values r)).

(** No column of the row is undefined. *)
Definition row_defined (r : feature_row) : bool :=
  negb (existsb isnan (row_values r)).

(** [df.dropna()]: keep the rows without any undefined value, in order. *)
Definition dropna (df : FeatureFrame) : FeatureFrame :=
  filter row_defined df.

(** ** [PricePredictor.prepare_features] *)

Section Features.

(** Whether the installed pandas forward-fills in [pct_change]. *)
Variable pad : bool.

(** The table after the five column assignments, before [dropna]. *)
Definition add_indicators (df : DataFrame) : FeatureFrame :=
  let closes := map close df in
  let volumes := map volume df in
  let sma5 := Pandas.rolling_mean 5 closes in
  let sma20 := Pandas.rolling_mean 20 closes in
  let pm := Pandas.pct_change pad closes in
  let vm := Pandas.pct_change pad volumes in
  let vol := Pandas.rolling_std 5 closes in
  map (fun ib : nat * bar =>
         let (i, b) := ib in
         mk_feature_row b (nth i sma5 nan) (nth i sma20 nan)
           (nth i pm nan) (nth i vm nan) (nth i vol nan))
      (combine (seq 0 (length df)) df).

Definition prepare_features (df : DataFrame) : FeatureFrame :=
  dropna (add_indicators df).

End Features.

(** ** Exceptions, results and the state of a run *)

(** A raised exception.  [PyException cls msg] is an instance of a class
    derived from [Exception] whose string form is [msg]; [SystemExit] and
    [KeyboardInterrupt] derive from [BaseException] only. *)
Inductive exn : Type :=
| PyException (cls : string) (msg : string)
| SystemExit (code : Z)
| KeyboardInterrupt.

(** [isinstance(e, Exception)] *)
Definition is_Exception (e : exn) : bool :=
  match e with
  | PyException _ _ => true
  | SystemExit _ | KeyboardInterrupt => false
  end.

(** [str(e)] for the exceptions an [except Exception] clause can bind. *)
Definition exn_str (e : exn) : string :=
  match e with
  | PyException _ msg => msg
  | SystemExit _ | KeyboardInterrupt => EmptyString
  end.

Inductive result (A : Type) : Type :=
| Return (a : A)
| Raise (e : exn).

Arguments Return {A} a.
Arguments Raise {A} e.

(** A statement runs from a state and either returns or raises; the state
    it leaves is kept in both cases. *)
Definition M (S A : Type) : Type := S -> result A * S.

Definition ret {S A : Type} (a : A) : M S A := fun s => (Return a, s).

Definition raise {S A : Type} (e : exn) : M S A := fun s => (Raise e, s).

Definition bind {S A B : Type} (m : M S A) (k : A -> M S B) : M S B :=
  fun s =>
    match m s with
    | (Return a, s') => k a s'
    | (Raise e, s') => (Raise e, s')
    end.

Declare Scope py_scope.
Delimit Scope py_scope with py.

Notation "x <- m ;; k" := (bind m (fun x => k))
  (at level 100, m at next level, right associativity) : py_scope.
Notation "m ;;; k" := (bind m (fun _ => k))
  (at level 100, right associativity) : py_scope.

(** [try: body  except Exception as e: handler e] *)
Definition try_except_Exception {S A : Type}
    (body : M S A) (handler : exn -> M S A) : M S A :=
  fun s =>
    match body s with
    | (Return a, s') => (Return a, s')
    | (Raise e, s') =>
        if is_Exception e then handler e s' else (Raise e, s')
    end.

(** What a run can observe and change outside the program: the lines
    written to standard output, the URLs requested so far, and how many
    times the clock and the random generator have been consulted. *)
Record world := mk_world {
  stdout : list string;
  requests : list string;
  clock : nat;
  draws : nat
}.

(** The two library estimators held by a predictor. *)
Inductive scaler_state : Type :=
| Unfitted
| Fitted (mean_ scale_ : list float).

Inductive model_state : Type :=
| Untrained
| Trained (coef_ : list float).

Record predictor := mk_predictor {
  model : model_state;
  scaler : scaler_state;
  features : list string
}.

(** The state seen by a method: the object and the world. *)
Record pstate := mk_pstate {
  self : predictor;
  env : world
}.

Class HasWorld (S : Type) := {
  get_world : S -> world;
  set_world : world -> S -> S
}.

#[export] Instance world_HasWorld : HasWorld world :=
  {| get_world := fun w => w; set_world := fun w _ => w |}.

#[export] Instance pstate_HasWorld : HasWorld pstate :=
  {| get_world := env; set_world := fun w s => mk_pstate (self s) w |}.

(** ** The response of the data provider *)

(** A value of the top-level JSON object: a text (the provider's notes and
    error messages) or a time series, which maps each timestamp to a record
    of named string fields.  Objects are Python dictionaries: association
    lists in insertion order, looked up by key. *)
Inductive jvalue : Type :=
| JText (s : string)
| JSeries (rows : list (string * list (string * string))).

Definition response := list (string * jvalue).

Fixpoint dict_get {V : Type} (k : string) (d : list (string * V)) : option V :=
  match d with
  | [] => None
  | (k', v) :: t => if String.eqb k k' then Some v else dict_get k t
  end.

(** [k in d] *)
Definition dict_contains {V : Type} (k : string) (d : list (string * V)) : bool :=
  match dict_get k d with Some _ => true | None => false end.

(** ** The run-time environment

    The library routines whose results the program only passes on, and the
    answers of the outside world. *)
Record Runtime := mk_Runtime {
  (** [float.__repr__], as [json.dumps] writes a finite number *)
  float_repr : float -> string;
  (** [json.dumps] of a string: quoted and escaped *)
  json_quote : string -> string;
  (** [float(s)] on a table cell; [None] when [s] is not a number *)
  float_of_str : string -> option float;
  (** the least-squares solution of [LinearRegression.fit] *)
  lstsq : list (list float) -> list float -> list float;
  (** [np.random.normal(loc, scale)], by draw number *)
  random_normal : nat -> float -> float -> result float;
  (** [datetime.now().isoformat()], by clock reading *)
  isoformat_now : nat -> string;
  (** [os.getenv] *)
  getenv : string -> option string;
  (** [requests.get(url).json()] *)
  http_get_json : string -> result response
}.

(** ** Primitive operations *)

Section Primitives.

Variable rt : Runtime.
Context {S : Type} {HW : HasWorld S}.

(** [print(line)] on an output stream that accepts the line; [Faults]
    below adds the runs in which it does not. *)
Definition print (line : string) : M S unit :=
  fun s =>
    let w := get_world s in
    (Return tt,
     set_world (mk_world (stdout w ++ [line]) (requests w) (clock w) (draws w)) s).

(** [datetime.now().isoformat()], when the clock answers. *)
Definition datetime_now_isoformat : M S string :=
  fun s =>
    let w := get_world s in
    (Return (isoformat_now rt (clock w)),
     set_world (mk_world (stdout w) (requests w) (Datatypes.S (clock w)) (draws w)) s).

(** [np.random.normal(loc, scale)] *)
Definition np_random_normal (loc scale : float) : M S float :=
  fun s =>
    let w := get_world s in
    (random_normal rt (draws w) loc scale,
     set_world (mk_world (stdout w) (requests w) (clock w) (Datatypes.S (draws w))) s).

(** [requests.get(url).json()]: one request, logged. *)
Definition requests_get_json (url : string) : M S response :=
  fun s =>
    let w := get_world s in
    (http_get_json rt url,
     set_world (mk_world (stdout w) (requests w ++ [url]) (clock w) (draws w)) s).

(** [sys.exit(code)] *)
Definition sys_exit {A : Type} (code : Z) : M S A := raise (SystemExit code).

End Primitives.

(** ** [json.dumps] of the flat dictionaries the program prints *)

Inductive json_value : Type :=
| JFloat (x : float)
| JStr (s : string).

Section Json.

Variable rt : Runtime.

Definition json_float (x : float) : string :=
  match x with
  | S754_nan => "NaN"
  | S754_infinity false => "Infinity"
  | S754_infinity true => "-Infinity"
  | _ => float_repr rt x
  end%string.

Definition json_item (kv : string * json_value) : string :=
  (json_quote rt (fst kv) ++ ": " ++
   match snd kv with
   | JFloat x => json_float x
   | JStr s => json_quote rt s
   end)%string.

Definition json_dumps (d : list (string * json_value)) : string :=
  ("{" ++ String.concat ", " (map json_item d) ++ "}")%string.

End Json.

(** ** [PricePredictor.__init__] and [PricePredictor.predict] *)

Definition default_features : list string :=
  ["open"; "high"; "low"; "close"; "volume"]%string.

Definition PricePredictor_init : predictor :=
  mk_predictor Untrained Unfitted default_features.

(** The literals [0.02] and [0.75] as binary64 values. *)
Definition lit_0_02 : float := S754_finite false 5764607523034235 (-58).
Definition lit_0_75 : float := S754_finite false 6755399441055744 (-53).

(** The dictionary printed on success. *)
Definition prediction_record (current_price prediction : float) (now : string)
    : list (string * json_value) :=
  [("current_price", JFloat current_price);
   ("predicted_price", JFloat prediction);
   ("predicted_change_percent",
    JFloat (mul (div (sub prediction current_price) current_price) (of_Z 100)));
   ("confidence_score", JFloat lit_0_75);
   ("timestamp", JStr now)]%string.

(** The dictionary printed on failure. *)
Definition error_record (msg now : string) : list (string * json_value) :=
  [("error", JStr msg); ("timestamp", JStr now)]%string.

Section Predict.

Variable rt : Runtime.

Local Open Scope py_scope.

(** [predict] in a run where only the draw may raise; [Faults.predict]
    below is the same method in a run that can be cut short at any
    statement. *)
Definition predict (symbol : string) : M pstate bool :=
  try_except_Exception
    (let current_price := of_Z 100 in
     z <- np_random_normal rt (of_Z 0) lit_0_02 ;;
     let prediction := mul current_price (add (of_Z 1) z) in
     now <- datetime_now_isoformat rt ;;
     let result := prediction_record current_price prediction now in
     print (json_dumps rt result) ;;;
     ret true)
    (fun e =>
       now <- datetime_now_isoformat rt ;;
       print (json_dumps rt (error_record (exn_str e) now)) ;;;
       ret false).

(** A method call on a freshly built object from the top level. *)
Definition call_method {A : Type} (obj : predictor) (m : M pstate A)
    : M world A :=
  fun w => let (r, s) := m (mk_pstate obj w) in (r, env s).

Definition usage : string := "Usage: python predict.py <symbol>".

(** The [if __name__ == '__main__'] block, run with [sys.argv = argv]. *)
Definition main (argv : list string) : M world unit :=
  if negb (List.length argv =? 2)%nat then
    now <- datetime_now_isoformat rt ;;
    print (json_dumps rt (error_record usage now)) ;;;
    sys_exit 1
  else
    let symbol := nth 1 argv EmptyString in
    let predictor := PricePredictor_init in
    success <- call_method predictor (predict symbol) ;;
    sys_exit (if success : bool then 0 else 1)%Z.

End Predict.

(** ** Runs that can be cut short

    The operations above describe a run in which the output stream and the
    clock do their work and no signal arrives.  In a real run a call can
    raise instead of returning ([print] on a closed stream raises an
    [OSError]) and an interrupt raises [KeyboardInterrupt] at whatever
    statement is being executed.  The statements of [predict] and of the
    entry point are therefore run once more with these events added: the
    program points are numbered in order of execution, and a schedule says
    which exception, if any, arrives at each of them. *)

Module Faults.

Definition schedule := nat -> option exn.

(** The state of such a run: the state of the program and the number of
    program points passed so far. *)
Record run_state (S : Type) := mk_run_state {
  program : S;
  passed : nat
}.

Arguments mk_run_state {S} program passed.
Arguments program {S} r.
Arguments passed {S} r.

#[export] Instance run_state_HasWorld {S : Type} {HW : HasWorld S}
    : HasWorld (run_state S) :=
  {| get_world := fun s => get_world (program s);
     set_world := fun w s => mk_run_state (set_world w (program s)) (passed s) |}.

Section Statements.

Variable faults : schedule.
Variable rt : Runtime.

Local Open Scope py_scope.

(** A program point: the scheduled exception arrives and the operation is
    not carried out, or the operation runs. *)
Definition at_point {S A : Type} (m : M (run_state S) A) : M (run_state S) A :=
  fun s =>
    let s' := mk_run_state (program s) (Datatypes.S (passed s)) in
    match faults (passed s) with
    | Some e => (Raise e, s')
    | None => m s'
    end.

(** The [try] block of [predict], lines 80 to 93.  An exception that arrives
    once [print] has written the line is met at the [return]. *)
Definition predict_try : M (run_state pstate) bool :=
  let current_price := of_Z 100 in
  z <- at_point (np_random_normal rt (of_Z 0) lit_0_02) ;;
  let prediction := mul current_price (add (of_Z 1) z) in
  now <- at_point (datetime_now_isoformat rt) ;;
  let result := prediction_record current_price prediction now in
  line <- at_point (ret (json_dumps rt result)) ;;
  at_point (print line) ;;;
  at_point (ret true).

(** The [except Exception as e] block, lines 96 to 100. *)
Definition predict_except (e : exn) : M (run_state pstate) bool :=
  msg <- at_point (ret (exn_str e)) ;;
  now <- at_point (datetime_now_isoformat rt) ;;
  line <- at_point (ret (json_dumps rt (error_record msg now))) ;;
  at_point (print line) ;;;
  at_point (ret false).

Definition predict (symbol : string) : M (run_state pstate) bool :=
  try_except_Exception predict_try predict_except.

Definition call_method {A : Type} (obj : predictor)
    (m : M (run_state pstate) A) : M (run_state world) A :=
  fun s =>
    let (r, s') := m (mk_run_state (mk_pstate obj (program s)) (passed s)) in
    (r, mk_run_state (env (program s')) (passed s')).

Definition main (argv : list string) : M (run_state world) unit :=
  if negb (List.length argv =? 2)%nat then
    now <- at_point (datetime_now_isoformat rt) ;;
    line <- at_point (ret (json_dumps rt (error_record usage now))) ;;
    at_point (print line) ;;;
    at_point (sys_exit 1)
  else
    let symbol := nth 1 argv EmptyString in
    predictor <- at_point (ret PricePredictor_init) ;;
    success <- call_method predictor (predict symbol) ;;
    at_point (sys_exit (if success : bool then 0 else 1)%Z).

End Statements.

(** The schedule of a run in which nothing arrives. *)
Definition quiet : schedule := fun _ => None.

(** The schedule with the single exception [e] at point [k]. *)
Definition once (k : nat) (e : exn) : schedule :=
  fun n => if (n =? k)%nat then Some e else None.

End Faults.

(** ** [PricePredictor.fetch_historical_data] *)

Definition string_of_nat (n : nat) : string :=
  NilEmpty.string_of_uint (Nat.to_uint n).

(** An object-typed table as [DataFrame.from_dict] builds it: column labels,
    index labels and, row by row, the cells ([None] where a record lacks the
    column). *)
Record object_table := mk_object_table {
  columns : list string;
  index : list string;
  cells : list (list (option string))
}.

(** The distinct elements in order of first occurrence. *)
Fixpoint unique (l : list string) : list string :=
  match l with
  | [] => []
  | x :: t => x :: filter (fun y => negb (String.eqb x y)) (unique t)
  end.

(** [pd.DataFrame.from_dict(series, orient='index')] on a dictionary of
    records: one row per timestamp, in the order of the dictionary; the
    columns are the field names in order of first appearance; a record
    without a field has a missing cell in that column. *)
Definition from_dict_index (series : list (string * list (string * string)))
    : object_table :=
  let cols := unique (concat (map (fun r => map fst (snd r)) series)) in
  mk_object_table cols (map fst series)
    (map (fun r => map (fun c => dict_get c (snd r)) cols) series).

Definition alpha_vantage_key : string := "Time Series (5min)".

Definition fetch_failed : exn :=
  PyException "Exception" "Failed to fetch data from Alpha Vantage".

Section Fetch.

Variable rt : Runtime.

Local Open Scope py_scope.
Local Open Scope string_scope.

Definition request_url (symbol : string) : string :=
  let api_key :=
    match getenv rt "ALPHA_VANTAGE_API_KEY" with
    | Some k => k
    | None => "None"
    end in
  "https://www.alphavantage.co/query?function=TIME_SERIES_INTRADAY&symbol="
  ++ symbol ++ "&interval=5min&apikey=" ++ api_key ++ "&outputsize=full".

(** One cell under [astype(float)]: a missing cell is not-a-number. *)
Definition cell_float (c : option string) : option float :=
  match c with
  | None => Some nan
  | Some s => float_of_str rt s
  end.

(** The cells in column-major order, as the conversion visits them. *)
Definition cells_by_column (t : object_table) : list (option string) :=
  concat (map (fun j => map (fun row => nth j row None) (cells t))
              (seq 0 (List.length (columns t)))).

(** [df.astype(float)] after [df.columns = [...]]. *)
Definition astype_float (t : object_table) : result DataFrame :=
  match find (fun c => match cell_float c with None => true | Some _ => false end)
             (cells_by_column t) with
  | Some bad =>
      Raise (PyException "ValueError"
               ("could not convert string to float: '"
                ++ match bad with Some s => s | None => "" end ++ "'"))
  | None =>
      let value row j :=
        match cell_float (nth j row None) with
        | Some x => x
        | None => nan
        end in
      Return (map (fun ir : string * list (option string) =>
                     let (i, row) := ir in
                     mk_bar i (value row 0) (value row 1) (value row 2)
                       (value row 3) (value row 4))
                  (combine (index t) (cells t)))
  end%nat.

(** Lines 51-54: the table of a time series. *)
Definition dataframe_of (v : jvalue) : result DataFrame :=
  match v with
  | JText s =>
      if (String.length s =? 0)%nat
      then Raise (PyException "ValueError"
                    "DataFrame constructor not properly called!")
      else Raise (PyException "AttributeError"
                    "'str' object has no attribute 'values'")
  | JSeries series =>
      let t := from_dict_index series in
      if (List.length (columns t) =? 5)%nat then astype_float t
      else Raise (PyException "ValueError"
                    ("Length mismatch: Expected axis has "
                     ++ string_of_nat (List.length (columns t))
                     ++ " elements, new values have 5 elements"))
  end.

Definition fetch_historical_data (symbol : string) : M pstate DataFrame :=
  let url := request_url symbol in
  data <- requests_get_json rt url ;;
  if negb (dict_contains alpha_vantage_key data) then raise fetch_failed
  else
    match dict_get alpha_vantage_key data with
    | Some v => fun s => (dataframe_of v, s)
    | None => raise (PyException "KeyError" "'Time Series (5min)'")
    end.

(** The row the provider's record stands for: its timestamp and its five
    fields, in the provider's order, as floats. *)
Definition bar_of_record (r : string * list (string * string)) : bar :=
  let value j :=
    match nth_error (snd r) j with
    | Some (_, s) =>
        match float_of_str rt s with Some x => x | None => nan end
    | None => nan
    end in
  mk_bar (fst r) (value 0%nat) (value 1%nat) (value 2%nat) (value 3%nat)
    (value 4%nat).

(** Every field of every record is the text of a number. *)
Definition all_numeric (series : list (string * list (string * string))) : bool :=
  forallb (fun r =>
             forallb (fun kv => match float_of_str rt (snd kv) with
                                | Some _ => true
                                | None => false
                                end) (snd r)) series.

End Fetch.

(** A time series as the provider documents it: at least one record, one
    record per timestamp, and in every record the same five distinct
    fields in the same order. *)
Definition regular_series (names : list string)
    (series : list (string * list (string * string))) : Prop :=
  series <> []
  /\ NoDup (map fst series)
  /\ NoDup names
  /\ List.length names = 5%nat
  /\ forall r, In r series -> map fst (snd r) = names.

(** ** The scikit-learn estimators used by [train]

    Input validation follows the library: an estimator rejects a matrix
    without rows or without columns and a matrix with an infinite entry
    ([StandardScaler] lets not-a-number through, [LinearRegression] does
    not).  The scaler's statistics follow the documented formula
    [z = (x - u) / s] with the population standard deviation, a zero
    deviation being replaced by one. *)

Definition matrix := list (list float).

Module Sklearn.

Local Open Scope string_scope.

Definition shape (X : matrix) (n_features : nat) : string :=
  "(" ++ string_of_nat (List.length X) ++ ", " ++ string_of_nat n_features ++ ")".

Definition value_error (msg : string) : exn := PyException "ValueError" msg.

(** [check_array]: finiteness first, then the minimal shape. *)
Definition check_array (estimator : string) (allow_nan : bool)
    (n_features : nat) (X : matrix) : result unit :=
  let ok x := isfinite x || (allow_nan && isnan x) in
  if negb (forallb (forallb ok) X) then
    Raise (value_error
      "Input X contains infinity or a value too large for dtype('float64').")
  else if (List.length X =? 0)%nat then
    Raise (value_error
      ("Found array with 0 sample(s) (shape=" ++ shape X n_features
       ++ ") while a minimum of 1 is required by " ++ estimator ++ "."))
  else if (n_features =? 0)%nat then
    Raise (value_error
      ("Found array with 0 feature(s) (shape=" ++ shape X n_features
       ++ ") while a minimum of 1 is required by " ++ estimator ++ "."))
  else Return tt.

Definition column (j : nat) (X : matrix) : list float :=
  map (fun row => nth j row nan) X.

Definition col_mean (xs : list float) : float :=
  div (fsum xs) (of_nat (List.length xs)).

(** The variance of a column, as [_incremental_mean_and_var] computes it on
    a first batch: the squared deviations from the mean, less the squared
    sum of the deviations over the number of samples. *)
Definition col_var (xs : list float) : float :=
  let n := of_nat (List.length xs) in
  let m := div (fsum xs) n in
  let temp := map (fun x => sub x m) xs in
  let correction := fsum temp in
  let unnormalized := fsum (map (fun d => mul d d) temp) in
  div (sub unnormalized (div (mul correction correction) n)) n.

(** The machine epsilon of binary64, [2^-52]. *)
Definition eps : float := S754_finite false 4503599627370496 (-104).

(** [_is_constant_feature]: the variance is within the rounding error of
    its computation. *)
Definition is_constant_feature (var mean : float) (n_samples : nat) : bool :=
  let n := of_nat n_samples in
  let e := mul (mul n mean) eps in
  leb var (add (mul (mul n eps) var) (mul e e)).

(** The scale of a column: one for a column detected as constant, otherwise
    the standard deviation. *)
Definition col_scale (xs : list float) : float :=
  let var := col_var xs in
  if is_constant_feature var (col_mean xs) (List.length xs) then of_Z 1
  else sqrt var.

Definition standardize (means scales : list float) (X : matrix) : matrix :=
  map (fun row =>
         map (fun xms : float * (float * float) =>
                let '(x, (m, s)) := xms in div (sub x m) s)
             (combine row (combine means scales)))
      X.

(** [StandardScaler().fit_transform(X)]: the fitted state and the scaled
    matrix, or the validation error. *)
Definition fit_transform (n_features : nat) (X : matrix)
    : result (scaler_state * matrix) :=
  match check_array "StandardScaler" true n_features X with
  | Raise e => Raise e
  | Return _ =>
      let means := map (fun j => col_mean (column j X)) (seq 0 n_features) in
      let scales := map (fun j => col_scale (column j X)) (seq 0 n_features) in
      Return (Fitted means scales, standardize means scales X)
  end.

(** [LinearRegression().fit(X, y)]: the fitted state, or the validation
    error. *)
Definition fit (rt : Runtime) (n_features : nat) (X : matrix)
    (y : list float) : result model_state :=
  match check_array "LinearRegression" false n_features X with
  | Raise e => Raise e
  | Return _ =>
      if negb (forallb isfinite y) then
        Raise (value_error
          "Input y contains infinity or a value too large for dtype('float64').")
      else Return (Trained (lstsq rt X y))
  end.

End Sklearn.

(** ** [PricePredictor.train] *)

(** [row[name]] in the feature table. *)
Definition get_column (name : string) (r : feature_row) : option float :=
  (if String.eqb name "open" then Some (open (base r))
   else if String.eqb name "high" then Some (high (base r))
   else if String.eqb name "low" then Some (low (base r))
   else if String.eqb name "close" then Some (close (base r))
   else if String.eqb name "volume" then Some (volume (base r))
   else if String.eqb name "SMA_5" then Some (SMA_5 r)
   else if String.eqb name "SMA_20" then Some (SMA_20 r)
   else if String.eqb name "price_momentum" then Some (price_momentum r)
   else if String.eqb name "volume_momentum" then Some (volume_momentum r)
   else if String.eqb name "volatility" then Some (volatility r)
   else None)%string.

Definition feature_columns : list string :=
  ["open"; "high"; "low"; "close"; "volume"; "SMA_5"; "SMA_20";
   "price_momentum"; "volume_momentum"; "volatility"]%string.

(** [df[names].values]: one row of values per table row.  When some names
    are not columns the selection raises [KeyError]; the exception is given
    the missing labels, without the wording the library puts around them. *)
Definition select_values (names : list string) (df : FeatureFrame)
    : result matrix :=
  match filter (fun n => negb (existsb (String.eqb n) feature_columns)) names with
  | [] =>
      Return (map (fun r =>
                     map (fun n => match get_column n r with
                                   | Some x => x
                                   | None => nan
                                   end) names) df)
  | missing => Raise (PyException "KeyError" (String.concat ", " missing))
  end.

(** Lines 67-69: the inputs [X] and the labels [y] of the training set. *)
Definition training_data (names : list string) (df : FeatureFrame)
    : result (matrix * list float) :=
  match select_values names df with
  | Raise e => Raise e
  | Return X =>
      let y := removelast (Pandas.shift_neg1 (map (fun r => close (base r)) df)) in
      let X := removelast X in
      Return (X, y)
  end.

Section Train.

Variable rt : Runtime.
Variable pad : bool.

Local Open Scope py_scope.

Definition lift_result {A : Type} (r : result A) : M pstate A :=
  fun s => (r, s).

Definition set_scaler (sc : scaler_state) : M pstate unit :=
  fun s =>
    (Return tt,
     mk_pstate (mk_predictor (model (self s)) sc (features (self s))) (env s)).

Definition set_model (m : model_state) : M pstate unit :=
  fun s =>
    (Return tt,
     mk_pstate (mk_predictor m (scaler (self s)) (features (self s))) (env s)).

(** [self.scaler.fit_transform(X)]: fitting starts by discarding the
    previous statistics. *)
Definition scaler_fit_transform (n_features : nat) (X : matrix)
    : M pstate matrix :=
  set_scaler Unfitted ;;;
  r <- lift_result (Sklearn.fit_transform n_features X) ;;
  set_scaler (fst r) ;;;
  ret (snd r).

(** [self.model.fit(X, y)] *)
Definition model_fit (n_features : nat) (X : matrix) (y : list float)
    : M pstate unit :=
  m <- lift_result (Sklearn.fit rt n_features X y) ;;
  set_model m.

Definition train (symbol : string) : M pstate unit :=
  df <- fetch_historical_data rt symbol ;;
  let df := prepare_features pad df in
  names <- (fun s => (Return (features (self s)), s)) ;;
  Xy <- lift_result (training_data names df) ;;
  let n_features := List.length names in
  X <- scaler_fit_transform n_features (fst Xy) ;;
  model_fit n_features X (snd Xy).

End Train.

(** ** Conditions on raw tables *)

(** All five values of the row are defined. *)
Definition bar_defined (b : bar) : bool :=
  forallb (fun x => negb (isnan x)) (base_values b).

(** The rows a 20-row average can use: those with a defined close. *)
Definition usable_rows (df : DataFrame) : nat :=
  List.length (filter (fun b => negb (isnan (close b))) df).

(** The quotient [x / p] is undefined: [0 / 0] or [inf / inf]. *)
Definition undefined_ratio (x p : float) : bool :=
  (iszero x && iszero p) || (isinf x && isinf p).

(** No value of the column forms an undefined quotient with the value
    before it. *)
Fixpoint ratios_defined (xs : Series) : bool :=
  match xs with
  | p :: (x :: _) as t => negb (undefined_ratio x p) && ratios_defined t
  | _ => true
  end.

(** The mean of a full window of [w] values is a number: the running sum
    is one, or the window holds one repeated value, which is then the mean
    whatever the sum has become. *)
Definition mean_defined (w : nat) (st : Pandas.mean_state) : bool :=
  (w <=? Pandas.num_consecutive_same_value st)%nat
  || negb (isnan (Pandas.sum_x st)).

(** Likewise the deviation of a full window, with the running sum of
    squared differences. *)
Definition var_defined (w : nat) (st : Pandas.var_state) : bool :=
  (w <=? Pandas.var_same_value st)%nat
  || negb (isnan (Pandas.ssqdm_x st)).

(** From the twentieth row on, the running sums kept for the two rolling
    means and for the rolling deviation of the column give a number: no
    earlier overflow has turned them into not-a-number. *)
Definition running_sums_defined (xs : Series) : bool :=
  forallb (mean_defined 5) (skipn 19 (Pandas.mean_states 5 xs))
  && forallb (mean_defined 20) (skipn 19 (Pandas.mean_states 20 xs))
  && forallb (var_defined 5) (skipn 19 (Pandas.var_states 5 xs)).

(** ** Concrete environments and tables for the instances below *)

Module Samples.

Local Open Scope string_scope.

Definition dquote : string := String (ascii_of_nat 34) EmptyString.

(** The value of a string of decimal digits. *)
Fixpoint digits_value (s : string) (acc : N) : option N :=
  match s with
  | EmptyString => Some acc
  | String c t =>
      let n := N_of_ascii c in
      if (48 <=? n)%N && (n <=? 57)%N
      then digits_value t (10 * acc + (n - 48))%N
      else None
  end.

(** [float] on unsigned decimal integers; other texts are rejected. *)
Definition float_of_digits (s : string) : option float :=
  match s with
  | EmptyString => None
  | _ => option_map (fun n => of_Z (Z.of_N n)) (digits_value s 0)
  end.

(** An environment with a fixed draw and a fixed provider response.  The
    two text renderers are placeholders: no statement below depends on
    the characters they produce. *)
Definition runtime (draw : result float) (resp : result response) : Runtime :=
  {| float_repr := fun _ => "<float>";
     json_quote := fun s => dquote ++ s ++ dquote;
     float_of_str := float_of_digits;
     lstsq := fun _ _ => [];
     random_normal := fun _ _ _ => draw;
     isoformat_now := fun n => "2024-01-02T09:30:0" ++ string_of_nat n;
     getenv := fun _ => Some "demo";
     http_get_json := fun _ => resp |}.

Definition world0 : world := mk_world [] [] 0 0.

Definition state0 : pstate := mk_pstate PricePredictor_init world0.

(** [n] rows with every price equal to [price] and every volume equal to
    [vol]; the timestamps are the row numbers. *)
Definition flat_table (n : nat) (price vol : Z) : DataFrame :=
  map (fun i => mk_bar (string_of_nat i) (of_Z price) (of_Z price)
                  (of_Z price) (of_Z price) (of_Z vol))
      (seq 0 n).


(** Twenty regular rows, except that the last [open] is undefined. *)
Definition missing_open_table : DataFrame :=
  (flat_table 19 1 1
   ++ [mk_bar "19" nan (of_Z 1) (of_Z 1) (of_Z 1) (of_Z 1)])%list.

(** The provider's record for a row with the given price and volume. *)
Definition record (price vol : string) : list (string * string) :=
  [("1. open", price); ("2. high", price); ("3. low", price);
   ("4. close", price); ("5. volume", vol)].

(** A well-formed response with [n] rows. *)
Definition series_response (n : nat) : response :=
  [("Meta Data", JText "Intraday (5min)");
   (alpha_vantage_key,
    JSeries (map (fun i => (string_of_nat i, record "7" "3")) (seq 0 n)))].


(** The provider's answer when the call frequency is exceeded. *)
Definition rate_limited_response : response :=
  [("Note", JText "Thank you for using Alpha Vantage!")].

End Samples.

(** ** Further conditions and concrete inputs *)

(** Every record of the series carries the same distinct fields, in the
    same order. *)
Definition uniform_series (names : list string)
    (series : list (string * list (string * string))) : Prop :=
  series <> []
  /\ NoDup names
  /\ forall r, In r series -> map fst (snd r) = names.

(** The state a method leaves when only its predictor may have changed. *)
Definition same_world_but_requests (w w' : world) (url : string) : Prop :=
  stdout w' = stdout w
  /\ clock w' = clock w
  /\ draws w' = draws w
  /\ requests w' = requests w ++ [url].

Module MoreSamples.

Local Open Scope string_scope.

(** [float] on unsigned decimal integers and on the text [inf]. *)
Definition float_of_text (s : string) : option float :=
  if String.eqb s "inf" then Some (S754_infinity false)
  else Samples.float_of_digits s.

Definition runtime (resp : result response) : Runtime :=
  {| float_repr := fun _ => "<float>";
     json_quote := fun s => Samples.dquote ++ s ++ Samples.dquote;
     float_of_str := float_of_text;
     lstsq := fun _ _ => [];
     random_normal := fun _ _ _ => Return zero;
     isoformat_now := fun n => "2024-01-02T09:30:0" ++ string_of_nat n;
     getenv := fun _ => None;
     http_get_json := fun _ => resp |}.

(** A record whose [open] is the given text. *)
Definition record_open (o : string) : list (string * string) :=
  [("1. open", o); ("2. high", "7"); ("3. low", "7");
   ("4. close", "7"); ("5. volume", "3")].

(** Twenty-two regular rows, the twentieth with an infinite [open]. *)
Definition inf_open_series : list (string * list (string * string)) :=
  map (fun i => (string_of_nat i,
                 if (i =? 19)%nat then record_open "inf" else record_open "7"))
      (seq 0 22).

(** Two rows, the second with a text in place of a number. *)
Definition text_field_series : list (string * list (string * string)) :=
  [("0", record_open "7"); ("1", record_open "n/a")].

(** Rows with the four price fields only. *)
Definition four_field_series : list (string * list (string * string)) :=
  [("0", [("1. open", "7"); ("2. high", "7"); ("3. low", "7"); ("4. close", "7")]);
   ("1", [("1. open", "8"); ("2. high", "8"); ("3. low", "8"); ("4. close", "8")])].

(** Forty-five rows; the [open] of row 24 and the [close] of row 25 are
    infinite. *)
Definition inf_close_series : list (string * list (string * string)) :=
  map (fun i => (string_of_nat i,
                 if (i =? 24)%nat then record_open "inf"
                 else if (i =? 25)%nat then
                   [("1. open", "7"); ("2. high", "7"); ("3. low", "7");
                    ("4. close", "inf"); ("5. volume", "3")]
                 else record_open "7"))
      (seq 0 45).

Definition response_of (series : list (string * list (string * string)))
    : response :=
  [("Meta Data", JText "Intraday (5min)"); (alpha_vantage_key, JSeries series)].

(** Twenty-two rows whose close is undefined on the second row only. *)
Definition missing_close_table : DataFrame :=
  map (fun i => mk_bar (string_of_nat i) (of_Z 7) (of_Z 7) (of_Z 7)
                  (if (i =? 1)%nat then nan else of_Z 7) (of_Z 3))
      (seq 0 22).

(** Twenty-five rows whose closes alternate between 9e307 and 1e308. *)
Definition overflow_table : DataFrame :=
  map (fun i =>
         let c := of_Z (if Nat.even i then 9 * 10 ^ 307 else 10 ^ 308) in
         mk_bar (string_of_nat i) c c c c (of_Z 3))
      (seq 0 25).

(** Twenty-one rows without volume on the twentieth row only. *)
Definition zero_volume_bar_table : DataFrame :=
  map (fun i => mk_bar (string_of_nat i) (of_Z 7) (of_Z 7) (of_Z 7) (of_Z 7)
                  (if (i =? 19)%nat then of_Z 0 else of_Z 3))
      (seq 0 21).

End MoreSamples.

(** * Properties *)

(** ** Rounding never produces not-a-number

    The facts below hold at every precision; they are stated on the
    operations of [SpecFloat] and then used at binary64. *)

Section RoundingFacts.

Variables p e : Z.

Local Open Scope Z_scope.

Lemma iter_pos_invariant (A : Type) (f : A -> A) (Inv : A -> Prop) :
  (forall x, Inv x -> Inv (f x)) ->
  forall n x, Inv x -> Inv (iter_pos f n x).
Proof.
  intros Hf n; induction n as [n IH | n IH |]; intros x Hx; cbn [iter_pos].
  - apply IH, IH, Hf, Hx.
  - apply IH, IH, Hx.
  - apply Hf, Hx.
Qed.

Lemma shr_1_nonneg mrs : 0 <= shr_m mrs -> 0 <= shr_m (shr_1 mrs).
Proof.
  destruct mrs as [m r s]; cbn [shr_m shr_1].
  destruct m as [| q | q]; [| destruct q | destruct q]; cbn [shr_m]; lia.
Qed.

Lemma shr_nonneg mrs ex n :
  0 <= shr_m mrs -> 0 <= shr_m (fst (shr mrs ex n)).
Proof.
  intros H; destruct n as [| q | q]; cbn [shr fst]; trivial.
  apply iter_pos_invariant; trivial. exact shr_1_nonneg.
Qed.

Lemma shr_fexp_nonneg m ex l :
  0 <= m -> 0 <= shr_m (fst (shr_fexp p e m ex l)).
Proof.
  intros H; unfold shr_fexp; apply shr_nonneg.
  destruct l as [| []]; exact H.
Qed.

Lemma round_nearest_even_nonneg m l :
  0 <= m -> 0 <= round_nearest_even m l.
Proof.
  intros H; destruct l as [| []]; cbn [round_nearest_even]; try lia.
  destruct (Z.even m); lia.
Qed.

Lemma binary_round_aux_sign sx mx ex lx :
  0 <= mx -> has_sign sx (binary_round_aux p e sx mx ex lx) = true.
Proof.
  intros H; unfold binary_round_aux.
  pose proof (shr_fexp_nonneg ex lx H) as H1.
  destruct (shr_fexp p e mx ex lx) as [mrs' e'] eqn:E1; cbn [fst] in H1.
  pose proof (shr_fexp_nonneg e' loc_Exact
                (round_nearest_even_nonneg (loc_of_shr_record mrs') H1)) as H2.
  destruct (shr_fexp p e _ e' loc_Exact) as [mrs'' e''] eqn:E2; cbn [fst] in H2.
  destruct (shr_m mrs'') as [| q | q]; [| | lia].
  - cbn [has_sign]; apply Bool.eqb_reflx.
  - destruct (Z.leb e'' (e - p)); cbn [has_sign]; apply Bool.eqb_reflx.
Qed.

Lemma binary_round_sign sx mx ex :
  has_sign sx (binary_round p e sx mx ex) = true.
Proof.
  unfold binary_round.
  destruct (shl_align mx ex _) as [mz ez].
  apply binary_round_aux_sign; lia.
Qed.

Lemma has_sign_not_nan s x : has_sign s x = true -> isnan x = false.
Proof. destruct x; cbn; congruence. Qed.

Lemma binary_normalize_not_nan m ex sz :
  isnan (binary_normalize p e m ex sz) = false.
Proof.
  destruct m as [| q | q]; cbn [binary_normalize]; trivial;
    eapply has_sign_not_nan, binary_round_sign.
Qed.

(** A sum is undefined only for an undefined operand or for infinities of
    opposite signs. *)
Lemma SFadd_not_nan x y :
  isnan x = false -> isnan y = false -> isinf x && isinf y = false ->
  isnan (SFadd p e x y) = false.
Proof.
  destruct x as [sx | sx | | sx mx ex], y as [sy | sy | | sy my ey];
    cbn [isnan isinf andb SFadd]; try congruence; intros _ _ _.
  - destruct sx, sy; reflexivity.
  - apply binary_normalize_not_nan.
Qed.


(** Adding two numbers with a clear sign bit gives such a number. *)
Lemma SFadd_nonneg x y :
  nonneg x = true -> nonneg y = true -> nonneg (SFadd p e x y) = true.
Proof.
  unfold nonneg.
  destruct x as [sx | sx | | sx mx ex], y as [sy | sy | | sy my ey];
    cbn [has_sign SFadd]; try congruence;
    try (destruct sx, sy; cbn; congruence).
  destruct sx, sy; cbn [Bool.eqb]; try congruence; intros _ _.
  cbn [cond_Zopp Z.add binary_normalize].
  apply binary_round_sign.
Qed.

(** A square has a clear sign bit. *)
Lemma SFmul_self_nonneg d :
  isnan d = false -> nonneg (SFmul p e d d) = true.
Proof.
  unfold nonneg.
  destruct d as [s | s | | s m ex]; cbn [isnan has_sign SFmul]; try congruence;
    intros _; try (destruct s; reflexivity).
  replace false with (xorb s s) at 1 by (destruct s; reflexivity).
  apply binary_round_aux_sign; lia.
Qed.

Lemma SFdiv_core_binary_nonneg m1 e1 m2 e2 :
  0 <= fst (fst (SFdiv_core_binary p e (Zpos m1) e1 (Zpos m2) e2)).
Proof.
  unfold SFdiv_core_binary.
  set (s := _ - _ - _).
  set (m' := match s with Z0 => Zpos m1 | Zpos _ => _ | Zneg _ => _ end).
  assert (Hm : 0 <= m').
  { unfold m'; destruct s; try lia. apply Z.shiftl_nonneg; lia. }
  pose proof (Z_div_mod m' (Zpos m2) eq_refl) as Hd.
  destruct (Z.div_eucl m' (Zpos m2)) as [q r]; cbn [fst].
  nia.
Qed.

Lemma SFdiv_finite_sign sx mx ex sy my ey :
  has_sign (xorb sx sy)
    (SFdiv p e (S754_finite sx mx ex) (S754_finite sy my ey)) = true.
Proof.
  cbn [SFdiv].
  pose proof (SFdiv_core_binary_nonneg mx ex my ey) as H.
  destruct (SFdiv_core_binary p e (Zpos mx) ex (Zpos my) ey) as [[mz ez] lz].
  apply binary_round_aux_sign; exact H.
Qed.

(** A quotient of two finite numbers is undefined only for [0 / 0]. *)
Lemma SFdiv_not_nan x y :
  isfinite x = true -> isfinite y = true -> iszero x && iszero y = false ->
  isnan (SFdiv p e x y) = false.
Proof.
  destruct x as [sx | sx | | sx mx ex], y as [sy | sy | | sy my ey];
    cbn [isfinite iszero andb]; try congruence; intros _ _ _;
    try reflexivity.
  eapply has_sign_not_nan, SFdiv_finite_sign.
Qed.





End RoundingFacts.

(** ** Lists *)

Section ListFacts.

Context {A : Type}.



Lemma forallb_nth (f : A -> bool) (l : list A) i d :
  forallb f l = true -> (i < List.length l)%nat -> f (nth i l d) = true.
Proof.
  intros H Hi. rewrite forallb_forall in H. apply H, nth_In, Hi.
Qed.

Lemma nth_removelast (l : list A) i d :
  (S i < List.length l)%nat -> nth i (removelast l) d = nth i l d.
Proof.
  revert i; induction l as [| x l IH]; intros i Hi; [cbn in Hi; lia |].
  destruct l as [| y l]; [cbn in Hi; lia |].
  destruct i as [| i]; [reflexivity |].
  change (nth i (removelast (y :: l)) d = nth i (y :: l) d).
  apply IH; cbn in *; lia.
Qed.

Lemma length_removelast (l : list A) :
  List.length (removelast l) = (List.length l - 1)%nat.
Proof.
  induction l as [| x l IH]; [reflexivity |].
  destruct l as [| y l]; [reflexivity |].
  change (S (List.length (removelast (y :: l))) = (S (S (List.length l)) - 1)%nat).
  rewrite IH; cbn; lia.
Qed.


Lemma filter_none (f : A -> bool) (l : list A) :
  (forall x, In x l -> f x = false) -> filter f l = [].
Proof.
  induction l as [| x l IH]; intros H; [reflexivity |].
  cbn [filter]. rewrite (H x (or_introl eq_refl)).
  apply IH. intros y Hy; apply H; now right.
Qed.

Lemma nth_error_combine_seq (l : list A) :
  forall a i j b,
    nth_error (combine (seq a (List.length l)) l) i = Some (j, b) ->
    j = (a + i)%nat /\ nth_error l i = Some b.
Proof.
  induction l as [| x l IH]; intros a i j b; cbn [List.length seq combine].
  - destruct i; discriminate.
  - destruct i as [| i]; cbn [nth_error].
    + intros [= <- <-]; split; [lia | reflexivity].
    + intros H. apply IH in H as [-> H]. split; [lia | exact H].
Qed.


End ListFacts.

Lemma nth_map_seq (f : nat -> float) n i d :
  (i < n)%nat -> nth i (map f (seq 0 n)) d = f i.
Proof.
  intros Hi.
  rewrite (nth_indep _ d (f 0%nat)) by now rewrite length_map, length_seq.
  rewrite map_nth, seq_nth by exact Hi. reflexivity.
Qed.

(** ** Arithmetic of the indicators *)

Section IndicatorFacts.

Lemma isfinite_not_nan x : isfinite x = true -> isnan x = false.
Proof. destruct x; cbn; congruence. Qed.

Lemma isfinite_not_inf x : isfinite x = true -> isinf x = false.
Proof. destruct x; cbn; congruence. Qed.

Lemma nonneg_not_nan x : nonneg x = true -> isnan x = false.
Proof. apply has_sign_not_nan. Qed.

Lemma forallb_finite_no_nan xs :
  forallb isfinite xs = true -> existsb isnan xs = false.
Proof.
  induction xs as [| x xs IH]; cbn; trivial.
  intros H; apply andb_true_iff in H as [Hx Hxs].
  now rewrite (isfinite_not_nan _ Hx), IH.
Qed.

Lemma fold_add_not_nan xs :
  forall acc, isnan acc = false -> forallb isfinite xs = true ->
              isnan (fold_left add xs acc) = false.
Proof.
  induction xs as [| x xs IH]; intros acc Hacc H; cbn [fold_left]; trivial.
  cbn [forallb] in H; apply andb_true_iff in H as [Hx Hxs].
  apply IH; trivial.
  apply SFadd_not_nan; trivial; [now apply isfinite_not_nan |].
  rewrite (isfinite_not_inf _ Hx). apply andb_false_r.
Qed.

Lemma fsum_not_nan xs :
  forallb isfinite xs = true -> isnan (fsum xs) = false.
Proof. apply fold_add_not_nan; reflexivity. Qed.

Lemma fold_add_nonneg xs :
  forall acc, nonneg acc = true -> forallb nonneg xs = true ->
              nonneg (fold_left add xs acc) = true.
Proof.
  induction xs as [| x xs IH]; intros acc Hacc H; cbn [fold_left]; trivial.
  cbn [forallb] in H; apply andb_true_iff in H as [Hx Hxs].
  apply IH; trivial. now apply SFadd_nonneg.
Qed.

Lemma fsum_nonneg xs : forallb nonneg xs = true -> nonneg (fsum xs) = true.
Proof. apply fold_add_nonneg; reflexivity. Qed.







Lemma length_mean_scan w vals rest :
  forall i st, List.length (Pandas.mean_scan w vals i rest st) = List.length rest.
Proof.
  induction rest as [| x rest IH]; intros i st; [reflexivity |].
  cbn [Pandas.mean_scan List.length]. now rewrite IH.
Qed.

Lemma length_var_scan w vals rest :
  forall i st, List.length (Pandas.var_scan w vals i rest st) = List.length rest.
Proof.
  induction rest as [| x rest IH]; intros i st; [reflexivity |].
  cbn [Pandas.var_scan List.length]. now rewrite IH.
Qed.

Lemma length_mean_states w xs :
  List.length (Pandas.mean_states w xs) = List.length xs.
Proof.
  unfold Pandas.mean_states. rewrite length_mean_scan.
  unfold Pandas.rolling_values. apply length_map.
Qed.

Lemma length_var_states w xs :
  List.length (Pandas.var_states w xs) = List.length xs.
Proof.
  unfold Pandas.var_states. rewrite length_var_scan.
  unfold Pandas.rolling_values. apply length_map.
Qed.


Lemma nth_map_combine_seq {A : Type} (f : nat * A -> float) (l : list A)
    (i : nat) (d : float) (da : A) :
  (i < List.length l)%nat ->
  nth i (map f (combine (seq 0 (List.length l)) l)) d = f (i, nth i l da).
Proof.
  intros Hi.
  rewrite (nth_indep _ d (f (0%nat, da)))
    by (rewrite length_map, length_combine, length_seq; lia).
  rewrite map_nth, combine_nth by apply length_seq.
  now rewrite seq_nth.
Qed.

Lemma nth_rolling_mean w xs i :
  (i < List.length xs)%nat ->
  nth i (Pandas.rolling_mean w xs) nan
  = Pandas.rolling_at Pandas.calc_mean w xs i
      (nth i (Pandas.mean_states w xs) (Pandas.mean_init [])).
Proof.
  intros Hi. unfold Pandas.rolling_mean.
  rewrite <- (length_mean_states w xs).
  rewrite (nth_map_combine_seq _ _ nan (Pandas.mean_init []))
    by now rewrite length_mean_states.
  reflexivity.
Qed.

Lemma nth_rolling_std w xs i :
  (i < List.length xs)%nat ->
  nth i (Pandas.rolling_std w xs) nan
  = Pandas.rolling_at (fun w st => Pandas.zsqrt (Pandas.calc_var w st)) w xs i
      (nth i (Pandas.var_states w xs) (Pandas.var_init [])).
Proof.
  intros Hi. unfold Pandas.rolling_std.
  rewrite <- (length_var_states w xs).
  rewrite (nth_map_combine_seq _ _ nan (Pandas.var_init []))
    by now rewrite length_var_states.
  reflexivity.
Qed.

(** The rolling window is missing during the warm-up. *)
Lemma window_warm_up w xs i :
  (i + 1 < w)%nat -> Pandas.window w xs i = None.
Proof.
  intros H; unfold Pandas.window.
  destruct (Nat.ltb_spec (i + 1) w); [reflexivity | lia].
Qed.


Lemma ffill_from_defined xs :
  forall last,
    forallb (fun x => negb (isnan x)) xs = true ->
    Pandas.ffill_from last xs = xs.
Proof.
  induction xs as [| x xs IH]; intros last H; [reflexivity |].
  cbn [forallb] in H; apply andb_true_iff in H as [Hx Hxs].
  cbn [Pandas.ffill_from]. apply negb_true_iff in Hx. rewrite Hx.
  now rewrite IH.
Qed.

Lemma forallb_finite_defined xs :
  forallb isfinite xs = true -> forallb (fun x => negb (isnan x)) xs = true.
Proof.
  intros H. apply forallb_forall. intros x Hx.
  rewrite forallb_forall in H. now rewrite (isfinite_not_nan _ (H x Hx)).
Qed.

Lemma length_shift1 xs : List.length (Pandas.shift1 xs) = List.length xs.
Proof.
  destruct xs as [| x xs]; [reflexivity |].
  unfold Pandas.shift1. cbn [List.length].
  rewrite length_removelast. cbn [List.length]. lia.
Qed.

Lemma nth_shift1 xs i :
  (S i < List.length xs)%nat ->
  nth (S i) (Pandas.shift1 xs) nan = nth i xs nan.
Proof.
  intros Hi. destruct xs as [| x xs]; [cbn in Hi; lia |].
  unfold Pandas.shift1.
  change (nth i (removelast (x :: xs)) nan = nth i (x :: xs) nan).
  now apply nth_removelast.
Qed.

(** The momentum of a row after the first is [x / previous - 1]. *)
Lemma pct_change_nth_defined pad xs i :
  forallb (fun x => negb (isnan x)) xs = true -> (S i < List.length xs)%nat ->
  nth (S i) (Pandas.pct_change pad xs) nan
  = sub (div (nth (S i) xs nan) (nth i xs nan)) (of_Z 1).
Proof.
  intros H Hi. unfold Pandas.pct_change.
  assert (Hd : (if pad then Pandas.ffill xs else xs) = xs).
  { destruct pad; [apply ffill_from_defined, H | reflexivity]. }
  rewrite Hd.
  set (f := fun q : float * float => sub (div (fst q) (snd q)) (of_Z 1)).
  rewrite (nth_indep _ nan (f (nan, nan)))
    by (rewrite length_map, length_combine, length_shift1; lia).
  rewrite map_nth, combine_nth by now rewrite length_shift1.
  unfold f; cbn [fst snd]. now rewrite nth_shift1.
Qed.

Lemma pct_change_nth pad xs i :
  forallb isfinite xs = true -> (S i < List.length xs)%nat ->
  nth (S i) (Pandas.pct_change pad xs) nan
  = sub (div (nth (S i) xs nan) (nth i xs nan)) (of_Z 1).
Proof.
  intros H. now apply pct_change_nth_defined, forallb_finite_defined.
Qed.




End IndicatorFacts.

(** ** The feature table *)

Section FeatureFacts.

Variable pad : bool.

Lemma length_add_indicators df :
  List.length (add_indicators pad df) = List.length df.
Proof.
  unfold add_indicators.
  rewrite length_map, length_combine, length_seq. apply Nat.min_id.
Qed.


(** Row [i] of the table before [dropna]. *)
Lemma add_indicators_nth_error df i r :
  nth_error (add_indicators pad df) i = Some r ->
  (i < List.length df)%nat
  /\ nth_error df i = Some (base r)
  /\ SMA_5 r
     = Pandas.rolling_at Pandas.calc_mean 5 (map close df) i
         (nth i (Pandas.mean_states 5 (map close df)) (Pandas.mean_init []))
  /\ SMA_20 r
     = Pandas.rolling_at Pandas.calc_mean 20 (map close df) i
         (nth i (Pandas.mean_states 20 (map close df)) (Pandas.mean_init []))
  /\ price_momentum r = nth i (Pandas.pct_change pad (map close df)) nan
  /\ volume_momentum r = nth i (Pandas.pct_change pad (map volume df)) nan
  /\ volatility r
     = Pandas.rolling_at (fun w st => Pandas.zsqrt (Pandas.calc_var w st)) 5
         (map close df) i
         (nth i (Pandas.var_states 5 (map close df)) (Pandas.var_init [])).
Proof.
  unfold add_indicators. rewrite nth_error_map.
  destruct (nth_error (combine _ df) i) as [[j b] |] eqn:E; [| discriminate].
  cbn [option_map]. intros [= <-].
  apply nth_error_combine_seq in E as [-> E]. cbn [Nat.add] in *.
  assert (Hi : (i < List.length df)%nat)
    by (apply nth_error_Some; congruence).
  cbn [base SMA_5 SMA_20 price_momentum volume_momentum volatility].
  rewrite !nth_rolling_mean, nth_rolling_std by now rewrite length_map.
  repeat split; trivial.
Qed.

Lemma row_defined_split r :
  row_defined r = bar_defined (base r) && derived_defined r.
Proof.
  unfold row_defined, bar_defined, derived_defined, row_values.
  rewrite existsb_app, negb_orb. f_equal.
  generalize (base_values (base r)) as l.
  induction l as [| x l IH]; cbn; trivial.
  now rewrite negb_orb, IH.
Qed.

Lemma derived_defined_iff r :
  derived_defined r = true <->
  isnan (SMA_5 r) = false /\ isnan (SMA_20 r) = false
  /\ isnan (price_momentum r) = false /\ isnan (volume_momentum r) = false
  /\ isnan (volatility r) = false.
Proof.
  unfold derived_defined, derived_values. cbn [existsb].
  rewrite orb_false_r, negb_true_iff, !orb_false_iff. tauto.
Qed.

(** During the warm-up of the 20-row average the row is dropped. *)
Lemma warm_up_row df i r :
  nth_error (add_indicators pad df) i = Some r -> (i < 19)%nat ->
  row_defined r = false.
Proof.
  intros Hr Hi. apply add_indicators_nth_error in Hr as (_ & _ & _ & H20 & _).
  unfold Pandas.rolling_at in H20.
  rewrite window_warm_up in H20 by lia.
  rewrite row_defined_split. apply andb_false_iff; right.
  apply not_true_iff_false. rewrite derived_defined_iff.
  rewrite H20. cbn. intuition congruence.
Qed.




(** A full window needs as many defined values in the column. *)
Lemma window_defined_count w xs i win :
  Pandas.window w xs i = Some win -> (i < List.length xs)%nat ->
  (w <= List.length (filter (fun x => negb (isnan x)) xs))%nat.
Proof.
  unfold Pandas.window.
  destruct (Nat.ltb_spec (i + 1) w) as [| Hw]; [discriminate |].
  destruct (forallb isfinite _) eqn:E; [| discriminate]. intros _ Hi.
  set (k := (i + 1 - w)%nat) in *.
  rewrite <- (firstn_skipn k xs), filter_app, length_app.
  rewrite <- (firstn_skipn w (skipn k xs)), filter_app, length_app.
  assert (Hall : filter (fun x => negb (isnan x)) (firstn w (skipn k xs))
                 = firstn w (skipn k xs)).
  { apply forallb_filter_id, forallb_finite_defined, E. }
  rewrite Hall, length_firstn, length_skipn. unfold k. lia.
Qed.

Lemma filter_close_defined df :
  List.length (filter (fun x => negb (isnan x)) (map close df)) = usable_rows df.
Proof.
  unfold usable_rows. induction df as [| b df IH]; cbn; trivial.
  destruct (isnan (close b)); cbn; now rewrite IH.
Qed.

Lemma usable_rows_le_length df : (usable_rows df <= List.length df)%nat.
Proof. apply filter_length_le. Qed.

End FeatureFacts.

Lemma filter_skip_prefix {A : Type} (f : A -> bool) (l : list A) :
  forall k,
    (forall i x, nth_error l i = Some x -> (i < k)%nat -> f x = false) ->
    filter f l = filter f (skipn k l).
Proof.
  induction l as [| a l IH]; intros k H; destruct k as [| k]; trivial.
  cbn [filter skipn]. rewrite (H 0%nat a eq_refl) by lia.
  apply IH. intros i x Hx Hi. apply (H (S i) x Hx). lia.
Qed.

Lemma prepare_features_skips_warm_up (pad : bool) (df : DataFrame) :
  prepare_features pad df
  = filter row_defined (skipn 19 (add_indicators pad df)).
Proof.
  unfold prepare_features, dropna. apply filter_skip_prefix.
  intros i r Hr Hi. now apply (warm_up_row pad df (i := i)).
Qed.

Lemma length_prepare_features_le (pad : bool) (df : DataFrame) :
  (List.length (prepare_features pad df) <= List.length df - 19)%nat.
Proof.
  rewrite prepare_features_skips_warm_up.
  etransitivity; [apply filter_length_le |].
  now rewrite length_skipn, length_add_indicators.
Qed.











(** ** Claims on [prepare_features] *)





(** The condition on the running sums is needed: with closes that
    alternate between 9e307 and 1e308 every value is finite, yet the
    running sum of the second row overflows and every later row is
    dropped. *)
Example prepare_features_overflow_scenario :
  let df := MoreSamples.overflow_table in
  forallb bar_defined df = true
  /\ forallb isfinite (map close df) = true
  /\ ratios_defined (skipn 18 (map close df)) = true
  /\ ratios_defined (skipn 18 (map volume df)) = true
  /\ running_sums_defined (map close df) = false
  /\ List.length df = 25%nat
  /\ prepare_features false df = [].
Proof. vm_compute. repeat split; reflexivity. Qed.

(** C2, as stated, fails: in a table of twenty rows whose last row lacks
    only its [open], all five derived features of that row are defined, yet
    the row is dropped. *)
Lemma prepare_features_undefined_open_counterexample :
  exists r,
    nth_error (add_indicators false Samples.missing_open_table) 19 = Some r
    /\ derived_defined r = true
    /\ ~ In r (prepare_features false Samples.missing_open_table).
Proof.
  eexists. split; [vm_compute; reflexivity |]. split; [vm_compute; reflexivity |].
  vm_compute. tauto.
Qed.

(** C2 (amended): a row of the table survives [prepare_features] if and only
    if all ten of its values are defined, the five original ones and the
    five derived ones; an undefined original value drops the row as an
    undefined derived one does. *)
Theorem prepare_features_survival (pad : bool) (df : DataFrame) (i : nat)
    (r : feature_row) :
  nth_error (add_indicators pad df) i = Some r ->
  (In r (prepare_features pad df)
   <-> bar_defined (base r) = true /\ derived_defined r = true).
Proof.
  intros Hr. unfold prepare_features, dropna.
  rewrite filter_In, row_defined_split, andb_true_iff.
  apply nth_error_In in Hr. tauto.
Qed.

Lemma prepare_features_survival_witness :
  let df := Samples.flat_table 21 7 3 in
  let r := nth 20 (add_indicators true df)
               (mk_feature_row (mk_bar EmptyString nan nan nan nan nan)
                  nan nan nan nan nan) in
  nth_error (add_indicators true df) 20 = Some r
  /\ (In r (prepare_features true df)
      <-> bar_defined (base r) = true /\ derived_defined r = true).
Proof.
  intros df r.
  assert (H : nth_error (add_indicators true df) 20 = Some r)
    by (vm_compute; reflexivity).
  split; [exact H |].
  exact (@prepare_features_survival true df 20 r H).
Defined.

(** Without twenty defined closes the 20-row average is undefined on
    every row. *)
Lemma no_ready_row (pad : bool) (df : DataFrame) (r : feature_row) :
  (usable_rows df < 20)%nat -> In r (add_indicators pad df) ->
  row_defined r = false.
Proof.
  intros Hu Hr. apply In_nth_error in Hr as [i Hr].
  apply add_indicators_nth_error in Hr as (Hi & _ & _ & H20 & _).
  rewrite row_defined_split. apply andb_false_iff; right.
  apply not_true_iff_false. rewrite derived_defined_iff.
  intros (_ & Hn & _). rewrite H20 in Hn. unfold Pandas.rolling_at in Hn.
  destruct (Pandas.window 20 (map close df) i) as [win |] eqn:E;
    [| discriminate].
  apply window_defined_count in E; [| now rewrite length_map].
  rewrite filter_close_defined in E. lia.
Qed.

(** C3: a raw table with fewer than 20 usable rows (rows whose close is
    defined; in particular any table with fewer than 20 rows) yields the
    empty feature table; [prepare_features] is a total function, so nothing
    is raised. *)
Theorem prepare_features_short_table (pad : bool) (df : DataFrame) :
  (usable_rows df < 20)%nat -> prepare_features pad df = [].
Proof.
  intros Hu. unfold prepare_features, dropna. apply filter_none.
  intros r Hr. now apply (no_ready_row pad df).
Qed.

Lemma prepare_features_short_table_witness :
  (usable_rows (Samples.flat_table 19 7 3) < 20)%nat
  /\ prepare_features false (Samples.flat_table 19 7 3) = [].
Proof.
  assert (H : (usable_rows (Samples.flat_table 19 7 3) < 20)%nat)
    by (vm_compute; repeat constructor).
  split; [exact H |].
  exact (@prepare_features_short_table false _ H).
Defined.

(** The row count bounds the usable rows: every table with fewer than 20
    rows is covered. *)
Corollary prepare_features_few_rows (pad : bool) (df : DataFrame) :
  (List.length df < 20)%nat -> prepare_features pad df = [].
Proof.
  intros H. unfold prepare_features, dropna. apply filter_none.
  intros r Hr. apply (no_ready_row pad df); trivial.
  pose proof (usable_rows_le_length df). lia.
Qed.

(** ** [predict] and the command line *)

(** The literals denote the nearest binary64 values. *)
Lemma literal_values :
  lit_0_02 = div (of_Z 2) (of_Z 100)
  /\ lit_0_75 = div (of_Z 3) (of_Z 4)
  /\ of_Z 100 = S754_finite false 7036874417766400 (-46).
Proof. vm_compute. auto. Qed.

(** [predict] by cases on the outcome of the random draw, the only call of
    its body that can raise. *)
Lemma predict_cases (rt : Runtime) (symbol : string) (s : pstate) :
  predict rt symbol s =
  let w := env s in
  let now := isoformat_now rt (clock w) in
  let printed d :=
    mk_pstate (self s)
      (mk_world (stdout w ++ [json_dumps rt d]) (requests w)
         (S (clock w)) (S (draws w))) in
  match random_normal rt (draws w) (of_Z 0) lit_0_02 with
  | Return z =>
      (Return true,
       printed (prediction_record (of_Z 100)
                  (mul (of_Z 100) (add (of_Z 1) z)) now))
  | Raise e =>
      if is_Exception e
      then (Return false, printed (error_record (exn_str e) now))
      else (Raise e,
            mk_pstate (self s)
              (mk_world (stdout w) (requests w) (clock w) (S (draws w))))
  end.
Proof.
  unfold predict, try_except_Exception, bind, np_random_normal,
    datetime_now_isoformat, print, ret.
  cbn [get_world set_world pstate_HasWorld env self].
  destruct (random_normal rt (draws (env s)) (of_Z 0) lit_0_02) as [z | e].
  - reflexivity.
  - destruct (is_Exception e); reflexivity.
Qed.

(** C4: in every run of [predict] that returns true, the printed record has
    [current_price = 100.0] and [confidence_score = 0.75], its
    [predicted_price] is [current_price * (1 + z)] for the value [z] drawn
    from [np.random.normal(0, 0.02)], and its [predicted_change_percent] is
    [(predicted_price - 100.0) / 100.0 * 100], evaluated in binary64. *)
Theorem predict_success_record (rt : Runtime) (symbol : string)
    (s s' : pstate) :
  predict rt symbol s = (Return true, s') ->
  exists z,
    random_normal rt (draws (env s)) (of_Z 0) lit_0_02 = Return z
    /\ let current_price := of_Z 100 in
       let predicted_price := mul current_price (add (of_Z 1) z) in
       let predicted_change_percent :=
         mul (div (sub predicted_price (of_Z 100)) (of_Z 100)) (of_Z 100) in
       stdout (env s')
       = (stdout (env s)
          ++ [json_dumps rt
                [("current_price"%string, JFloat current_price);
                 ("predicted_price"%string, JFloat predicted_price);
                 ("predicted_change_percent"%string,
                  JFloat predicted_change_percent);
                 ("confidence_score"%string, JFloat lit_0_75);
                 ("timestamp"%string,
                  JStr (isoformat_now rt (clock (env s))))]])%list.
Proof.
  rewrite predict_cases. cbv zeta.
  destruct (random_normal rt (draws (env s)) (of_Z 0) lit_0_02) as [z | e].
  - intros [= <-]. exists z. split; reflexivity.
  - destruct (is_Exception e); discriminate.
Qed.

Lemma predict_success_record_witness :
  let rt := Samples.runtime (Return lit_0_02) (Return []) in
  exists s',
    predict rt "AAPL" Samples.state0 = (Return true, s')
    /\ exists z,
        random_normal rt 0 (of_Z 0) lit_0_02 = Return z
        /\ stdout (env s')
           = [json_dumps rt
                [("current_price"%string, JFloat (of_Z 100));
                 ("predicted_price"%string,
                  JFloat (mul (of_Z 100) (add (of_Z 1) z)));
                 ("predicted_change_percent"%string,
                  JFloat (mul (div (sub (mul (of_Z 100) (add (of_Z 1) z))
                                      (of_Z 100)) (of_Z 100)) (of_Z 100)));
                 ("confidence_score"%string, JFloat lit_0_75);
                 ("timestamp"%string, JStr (isoformat_now rt 0))]].
Proof.
  intros rt. eexists. split; [vm_compute; reflexivity |].
  refine (@predict_success_record rt "AAPL" Samples.state0 _ _).
  vm_compute; reflexivity.
Defined.

(** C5, as stated, fails: an exception that does not derive from
    [Exception] is not caught.  When the draw is interrupted
    ([KeyboardInterrupt]), [predict] neither returns true nor false: the
    interrupt reaches the caller and nothing is printed. *)
Lemma predict_keyboard_interrupt_counterexample :
  let run :=
    predict (Samples.runtime (Raise KeyboardInterrupt) (Return []))
      "AAPL" Samples.state0 in
  fst run = Raise KeyboardInterrupt
  /\ stdout (env (snd run)) = [].
Proof. vm_compute. auto. Qed.

(** *** Runs that can be cut short *)

Ltac step :=
  cbv beta iota;
  cbn [Faults.program Faults.passed get_world set_world
       Faults.run_state_HasWorld pstate_HasWorld world_HasWorld
       env self stdout requests clock draws Nat.add].

Lemma predict_try_cases (faults : Faults.schedule) (rt : Runtime)
    (s : Faults.run_state pstate) :
  let w := env (Faults.program s) in
  let k := Faults.passed s in
  let st out clk drw n :=
    Faults.mk_run_state
      (mk_pstate (self (Faults.program s)) (mk_world out (requests w) clk drw))
      n in
  Faults.predict_try faults rt s =
  match faults k with
  | Some e => (Raise e, st (stdout w) (clock w) (draws w) (1 + k)%nat)
  | None =>
  match random_normal rt (draws w) (of_Z 0) lit_0_02 with
  | Raise e => (Raise e, st (stdout w) (clock w) (S (draws w)) (1 + k)%nat)
  | Return z =>
  match faults (1 + k)%nat with
  | Some e => (Raise e, st (stdout w) (clock w) (S (draws w)) (2 + k)%nat)
  | None =>
  match faults (2 + k)%nat with
  | Some e => (Raise e, st (stdout w) (S (clock w)) (S (draws w)) (3 + k)%nat)
  | None =>
  match faults (3 + k)%nat with
  | Some e => (Raise e, st (stdout w) (S (clock w)) (S (draws w)) (4 + k)%nat)
  | None =>
  let out :=
    (stdout w
     ++ [json_dumps rt
           (prediction_record (of_Z 100) (mul (of_Z 100) (add (of_Z 1) z))
              (isoformat_now rt (clock w)))])%list in
  match faults (4 + k)%nat with
  | Some e => (Raise e, st out (S (clock w)) (S (draws w)) (5 + k)%nat)
  | None => (Return true, st out (S (clock w)) (S (draws w)) (5 + k)%nat)
  end end end end end end.
Proof.
  destruct s as [[obj [out0 req clk drw]] k]. cbv zeta. cbn [Faults.program Faults.passed env self].
  unfold Faults.predict_try, bind, Faults.at_point, np_random_normal,
    datetime_now_isoformat, print, ret.
  cbn [Faults.program Faults.passed get_world set_world Faults.run_state_HasWorld
       pstate_HasWorld env self stdout requests clock draws Nat.add].
  destruct (faults k); [reflexivity |]. step.
  destruct (random_normal rt drw (of_Z 0) lit_0_02); [| reflexivity]. step.
  destruct (faults (S k)); [reflexivity |]. step.
  destruct (faults (S (S k))); [reflexivity |]. step.
  destruct (faults (S (S (S k)))); [reflexivity |]. step.
  destruct (faults (S (S (S (S k))))); reflexivity.
Qed.

Lemma predict_except_cases (faults : Faults.schedule) (rt : Runtime)
    (e : exn) (s : Faults.run_state pstate) :
  let w := env (Faults.program s) in
  let k := Faults.passed s in
  let st out clk n :=
    Faults.mk_run_state
      (mk_pstate (self (Faults.program s))
         (mk_world out (requests w) clk (draws w)))
      n in
  Faults.predict_except faults rt e s =
  match faults k with
  | Some e' => (Raise e', st (stdout w) (clock w) (1 + k)%nat)
  | None =>
  match faults (1 + k)%nat with
  | Some e' => (Raise e', st (stdout w) (clock w) (2 + k)%nat)
  | None =>
  match faults (2 + k)%nat with
  | Some e' => (Raise e', st (stdout w) (S (clock w)) (3 + k)%nat)
  | None =>
  match faults (3 + k)%nat with
  | Some e' => (Raise e', st (stdout w) (S (clock w)) (4 + k)%nat)
  | None =>
  let out :=
    (stdout w
     ++ [json_dumps rt
           (error_record (exn_str e) (isoformat_now rt (clock w)))])%list in
  match faults (4 + k)%nat with
  | Some e' => (Raise e', st out (S (clock w)) (5 + k)%nat)
  | None => (Return false, st out (S (clock w)) (5 + k)%nat)
  end end end end end.
Proof.
  destruct s as [[obj [out0 req clk drw]] k]. cbv zeta. cbn [Faults.program Faults.passed env self].
  unfold Faults.predict_except, bind, Faults.at_point,
    datetime_now_isoformat, print, ret.
  cbn [Faults.program Faults.passed get_world set_world Faults.run_state_HasWorld
       pstate_HasWorld env self stdout requests clock draws Nat.add].
  destruct (faults k); [reflexivity |]. step.
  destruct (faults (S k)); [reflexivity |]. step.
  destruct (faults (S (S k))); [reflexivity |]. step.
  destruct (faults (S (S (S k)))); [reflexivity |]. step.
  destruct (faults (S (S (S (S k))))); reflexivity.
Qed.

(** With nothing scheduled the run is the one described by [predict]. *)
Lemma predict_quiet (rt : Runtime) (symbol : string) (s : pstate) (k : nat) :
  let run := Faults.predict Faults.quiet rt symbol (Faults.mk_run_state s k) in
  fst run = fst (predict rt symbol s)
  /\ Faults.program (snd run) = snd (predict rt symbol s).
Proof.
  cbv zeta. rewrite predict_cases. cbv zeta.
  unfold Faults.predict, try_except_Exception.
  rewrite predict_try_cases. cbv zeta. unfold Faults.quiet. step.
  destruct (random_normal rt (draws (env s)) (of_Z 0) lit_0_02) as [z | e].
  - split; reflexivity.
  - destruct (is_Exception e); [| split; reflexivity].
    rewrite predict_except_cases. cbv zeta. step. split; reflexivity.
Qed.

(** C5 (amended): [predict] returns true exactly when its [try] block
    completes, and it has then printed the success record.  When the block
    raises an exception derived from [Exception], the handler runs from the
    state the block left, in which the success line may already be printed:
    if the handler completes, a JSON object with the exception's string
    form under [error] and a timestamp has been printed and false is
    returned; if the handler itself raises (its clock reading and its
    [print] are not guarded), that exception reaches the caller.  An
    exception that is not derived from [Exception] is not caught: it
    reaches the caller from wherever the block stopped. *)
Theorem predict_exception_boundary (faults : Faults.schedule) (rt : Runtime)
    (symbol : string) (s : Faults.run_state pstate) :
  let w := env (Faults.program s) in
  let out (r : result bool * Faults.run_state pstate) :=
    stdout (env (Faults.program (snd r))) in
  let tried := Faults.predict_try faults rt s in
  let run := Faults.predict faults rt symbol s in
  let success_line z :=
    json_dumps rt
      (prediction_record (of_Z 100) (mul (of_Z 100) (add (of_Z 1) z))
         (isoformat_now rt (clock w))) in
  match fst tried with
  | Return b =>
      b = true
      /\ fst run = Return true
      /\ exists z,
           random_normal rt (draws w) (of_Z 0) lit_0_02 = Return z
           /\ out run = (stdout w ++ [success_line z])%list
  | Raise e =>
      (out tried = stdout w
       \/ exists z, out tried = (stdout w ++ [success_line z])%list)
      /\ if is_Exception e then
           let handled := Faults.predict_except faults rt e (snd tried) in
           let error_line :=
             json_dumps rt
               [("error"%string, JStr (exn_str e));
                ("timestamp"%string,
                 JStr (isoformat_now rt
                         (clock (env (Faults.program (snd tried))))))] in
           run = handled
           /\ match fst handled with
              | Return b =>
                  b = false
                  /\ out run = (out tried ++ [error_line])%list
              | Raise e' =>
                  (exists j,
                     (Faults.passed (snd tried) <= j)%nat
                     /\ faults j = Some e')
                  /\ (out run = out tried
                      \/ out run = (out tried ++ [error_line])%list)
              end
         else run = tried
  end.
Proof.
  cbv zeta. unfold Faults.predict, try_except_Exception.
  destruct (Faults.predict_try faults rt s) as [[b | e] s1] eqn:Htry;
    cbn [fst snd].
  - rewrite predict_try_cases in Htry. cbv zeta in Htry.
    destruct (faults (Faults.passed s)); [discriminate |].
    destruct (random_normal rt _ _ _) as [z |]; [| discriminate].
    destruct (faults (1 + _)%nat); [discriminate |].
    destruct (faults (2 + _)%nat); [discriminate |].
    destruct (faults (3 + _)%nat); [discriminate |].
    destruct (faults (4 + _)%nat); [discriminate |].
    injection Htry as <- <-. repeat split. exists z. split; reflexivity.
  - split.
    + rewrite predict_try_cases in Htry. cbv zeta in Htry.
      destruct (faults (Faults.passed s)); [injection Htry as _ <-; now left |].
      destruct (random_normal rt _ _ _) as [z |];
        [| injection Htry as _ <-; now left].
      destruct (faults (1 + _)%nat); [injection Htry as _ <-; now left |].
      destruct (faults (2 + _)%nat); [injection Htry as _ <-; now left |].
      destruct (faults (3 + _)%nat); [injection Htry as _ <-; now left |].
      destruct (faults (4 + _)%nat); [| discriminate].
      injection Htry as _ <-. right. exists z. reflexivity.
    + destruct (is_Exception e); [| reflexivity].
      split; [reflexivity |].
      rewrite predict_except_cases. cbv zeta.
      destruct (faults (Faults.passed s1)) eqn:E0.
      { cbn [fst snd]. split; [exists (Faults.passed s1); split; [lia | exact E0] |].
        now left. }
      destruct (faults (1 + _)%nat) eqn:E1.
      { cbn [fst snd]. split; [eexists; split; [| exact E1]; lia |]. now left. }
      destruct (faults (2 + _)%nat) eqn:E2.
      { cbn [fst snd]. split; [eexists; split; [| exact E2]; lia |]. now left. }
      destruct (faults (3 + _)%nat) eqn:E3.
      { cbn [fst snd]. split; [eexists; split; [| exact E3]; lia |]. now left. }
      destruct (faults (4 + _)%nat) eqn:E4.
      { cbn [fst snd]. split; [eexists; split; [| exact E4]; lia |]. now right. }
      cbn [fst snd]. split; reflexivity.
Qed.

(** A closed output stream: [print] raises in the [try] block and again in
    the handler, and [predict] lets the second exception through although it
    derives from [Exception]. *)
Example predict_broken_pipe_scenario :
  let e := PyException "BrokenPipeError" "[Errno 32] Broken pipe" in
  let faults n := if (n =? 3)%nat || (n =? 7)%nat then Some e else None in
  let run :=
    Faults.predict faults (Samples.runtime (Return lit_0_02) (Return []))
      "AAPL" (Faults.mk_run_state Samples.state0 0) in
  is_Exception e = true
  /\ fst run = Raise e
  /\ stdout (env (Faults.program (snd run))) = [].
Proof. vm_compute. auto. Qed.

(** An interrupt that arrives once the success line is written: the line
    stays and the interrupt reaches the caller. *)
Example predict_late_interrupt_scenario :
  let rt := Samples.runtime (Return lit_0_02) (Return []) in
  let run :=
    Faults.predict (Faults.once 4 KeyboardInterrupt) rt "AAPL"
      (Faults.mk_run_state Samples.state0 0) in
  fst run = Raise KeyboardInterrupt
  /\ List.length (stdout (env (Faults.program (snd run)))) = 1%nat.
Proof. vm_compute. auto. Qed.

(** C6: [sys.argv] holds the script name and the arguments.  With any number
    of arguments other than one, the process prints the JSON object with the
    usage message under [error] and a timestamp and exits with code 1; with
    exactly one argument it builds a predictor, calls [predict] on the
    argument and exits with code 0 when [predict] returned true and with
    code 1 when it returned false. *)
Theorem main_exit_codes (rt : Runtime) (argv : list string) (w : world) :
  (List.length argv <> 2%nat ->
   main rt argv w
   = (Raise (SystemExit 1),
      mk_world
        (stdout w
         ++ [json_dumps rt
               [("error"%string, JStr "Usage: python predict.py <symbol>");
                ("timestamp"%string, JStr (isoformat_now rt (clock w)))]])
        (requests w) (S (clock w)) (draws w)))
  /\ (forall script symbol b s,
        argv = [script; symbol] ->
        predict rt symbol (mk_pstate PricePredictor_init w) = (Return b, s) ->
        main rt argv w
        = (Raise (SystemExit (if b then 0 else 1)), env s)).
Proof.
  split.
  - intros H. unfold main.
    apply Nat.eqb_neq in H. rewrite H. reflexivity.
  - intros script symbol b s -> Hp. unfold main.
    cbn [List.length Nat.eqb negb nth].
    unfold bind, call_method. rewrite Hp. reflexivity.
Qed.

Lemma main_exit_codes_witness :
  let rt := Samples.runtime (Return lit_0_02) (Return []) in
  (List.length ["predict.py"%string] <> 2%nat
   /\ fst (main rt ["predict.py"%string] Samples.world0) = Raise (SystemExit 1))
  /\ (fst (predict rt "AAPL" (mk_pstate PricePredictor_init Samples.world0))
      = Return true
      /\ fst (main rt ["predict.py"; "AAPL"]%string Samples.world0)
         = Raise (SystemExit 0)).
Proof.
  intros rt. split.
  - assert (H : List.length ["predict.py"%string] <> 2%nat) by (cbn; lia).
    split; [exact H |].
    rewrite (proj1 (@main_exit_codes rt ["predict.py"%string] Samples.world0) H).
    reflexivity.
  - split; [vm_compute; reflexivity |].
    rewrite (proj2 (@main_exit_codes rt ["predict.py"; "AAPL"]%string
                      Samples.world0)
               "predict.py"%string "AAPL"%string true
               (snd (predict rt "AAPL"
                       (mk_pstate PricePredictor_init Samples.world0)))
               eq_refl);
      [reflexivity | vm_compute; reflexivity].
Defined.

(** When [predict] lets an exception through, so does the entry point. *)
Lemma main_propagates (rt : Runtime) (script symbol : string) (w : world)
    (e : exn) (s : pstate) :
  predict rt symbol (mk_pstate PricePredictor_init w) = (Raise e, s) ->
  main rt [script; symbol] w = (Raise e, env s).
Proof.
  intros Hp. unfold main. cbn [List.length Nat.eqb negb nth].
  unfold bind, call_method. now rewrite Hp.
Qed.

(** C10: [predict] makes no request and neither reads nor changes the
    model, the scaler or the feature list of the predictor; its outcome does
    not depend on the symbol.  For any two symbols and any two predictor
    objects, with the same draw and the same clock, the returned value and
    the whole world afterwards (the printed lines included) are the same,
    the request log is untouched and each object is left as it was.  What is
    printed, if anything, is a dictionary with the five result keys or with
    the two error keys: the symbol is no part of it. *)
Theorem predict_ignores_symbol (rt : Runtime) (symbol1 symbol2 : string)
    (obj1 obj2 : predictor) (w : world) :
  let run1 := predict rt symbol1 (mk_pstate obj1 w) in
  let run2 := predict rt symbol2 (mk_pstate obj2 w) in
  fst run1 = fst run2
  /\ env (snd run1) = env (snd run2)
  /\ requests (env (snd run1)) = requests w
  /\ self (snd run1) = obj1
  /\ self (snd run2) = obj2
  /\ (stdout (env (snd run1)) = stdout w
      \/ exists d,
           stdout (env (snd run1)) = stdout w ++ [json_dumps rt d]
           /\ (map fst d
               = ["current_price"; "predicted_price";
                  "predicted_change_percent"; "confidence_score";
                  "timestamp"]%string
               \/ map fst d = ["error"; "timestamp"]%string)).
Proof.
  cbv zeta. rewrite !predict_cases. cbv zeta. cbn [env self].
  destruct (random_normal rt (draws w) (of_Z 0) lit_0_02) as [z | e].
  - cbn [fst snd env self requests stdout].
    repeat split. right. eexists. split; [reflexivity |]. now left.
  - destruct (is_Exception e); cbn [fst snd env self requests stdout];
      repeat split.
    + right. eexists. split; [reflexivity |]. now right.
    + now left.
Qed.

(** ** The training set *)

Section TrainingFacts.

Context {A B : Type}.

Lemma map_removelast (f : A -> B) (l : list A) :
  removelast (map f l) = map f (removelast l).
Proof.
  induction l as [| x l IH]; [reflexivity |].
  destruct l as [| y l]; [reflexivity |].
  change (f x :: removelast (map f (y :: l)) = f x :: map f (removelast (y :: l))).
  now rewrite IH.
Qed.

Lemma nth_error_removelast (l : list A) i :
  (S i < List.length l)%nat -> nth_error (removelast l) i = nth_error l i.
Proof.
  revert i; induction l as [| x l IH]; intros i Hi; [cbn in Hi; lia |].
  destruct l as [| y l]; [cbn in Hi; lia |].
  destruct i as [| i]; [reflexivity |].
  change (nth_error (removelast (y :: l)) i = nth_error (y :: l) i).
  apply IH; cbn in *; lia.
Qed.

End TrainingFacts.

(** Shifting up by one and cutting the undefined end leaves the column
    without its first value. *)
Lemma removelast_shift_neg1 (xs : Series) :
  removelast (Pandas.shift_neg1 xs) = tl xs.
Proof.
  destruct xs as [| x xs]; [reflexivity |].
  cbn [Pandas.shift_neg1 tl]. apply removelast_last.
Qed.

Lemma select_values_default (df : FeatureFrame) :
  select_values default_features df
  = Return (map (fun r => base_values (base r)) df).
Proof. reflexivity. Qed.

Lemma training_data_default (df : FeatureFrame) :
  training_data default_features df
  = Return (map (fun r => base_values (base r)) (removelast df),
            map (fun r => close (base r)) (tl df)).
Proof.
  unfold training_data. rewrite select_values_default.
  rewrite removelast_shift_neg1, map_removelast.
  now destruct df.
Qed.

(** Lines 67-69 on a table [df] with the constructor's feature list: one
    example for each row except the last. *)
Lemma training_data_examples (df : FeatureFrame) :
  exists X y,
    training_data (features PricePredictor_init) df = Return (X, y)
    /\ List.length X = (List.length df - 1)%nat
    /\ List.length y = (List.length df - 1)%nat
    /\ forall i r r',
         nth_error df i = Some r -> nth_error df (S i) = Some r' ->
         nth_error X i
         = Some [open (base r); high (base r); low (base r);
                 close (base r); volume (base r)]
         /\ nth_error y i = Some (close (base r')).
Proof.
  do 2 eexists. split; [apply training_data_default |].
  split; [| split].
  - now rewrite length_map, length_removelast.
  - rewrite length_map. destruct df; cbn; lia.
  - intros i r r' Hr Hr'.
    assert (Hi : (S i < List.length df)%nat)
      by (apply nth_error_Some; congruence).
    split.
    + rewrite nth_error_map, nth_error_removelast, Hr by exact Hi.
      reflexivity.
    + rewrite nth_error_map.
      destruct df as [| b df]; [discriminate |].
      cbn [tl]. cbn [nth_error] in Hr'. now rewrite Hr'.
Qed.

(** ** Dictionaries and the table of a time series *)

Section DictFacts.

Lemma filter_all {A : Type} (f : A -> bool) (l : list A) :
  (forall x, In x l -> f x = true) -> filter f l = l.
Proof.
  induction l as [| x l IH]; intros H; [reflexivity |].
  cbn [filter]. rewrite (H x (or_introl eq_refl)). f_equal.
  apply IH. intros y Hy; apply H; now right.
Qed.

Lemma filter_filter {A : Type} (f g : A -> bool) (l : list A) :
  filter f (filter g l) = filter (fun x => g x && f x) l.
Proof.
  induction l as [| x l IH]; [reflexivity |].
  cbn [filter]. destruct (g x); cbn [filter andb]; [| exact IH].
  destruct (f x); now rewrite IH.
Qed.

Lemma find_none {A : Type} (f : A -> bool) (l : list A) :
  (forall x, In x l -> f x = false) -> find f l = None.
Proof.
  induction l as [| x l IH]; intros H; [reflexivity |].
  cbn [find]. rewrite (H x (or_introl eq_refl)).
  apply IH. intros y Hy; apply H; now right.
Qed.

Lemma combine_map {A B C : Type} (f : A -> B) (g : A -> C) (l : list A) :
  combine (map f l) (map g l) = map (fun x => (f x, g x)) l.
Proof. induction l as [| x l IH]; cbn; [| rewrite IH]; reflexivity. Qed.

Lemma unique_In (l : list string) (y : string) : In y (unique l) <-> In y l.
Proof.
  induction l as [| x l IH]; [reflexivity |].
  cbn [unique In]. rewrite filter_In, IH.
  destruct (String.eqb_spec x y) as [-> | Hne]; cbn; [tauto |].
  split; [tauto |]. intros [H | H]; [congruence | tauto].
Qed.

Lemma unique_NoDup (l : list string) : NoDup l -> unique l = l.
Proof.
  induction 1 as [| x l Hx _ IH]; [reflexivity |].
  cbn [unique]. rewrite IH. f_equal. apply filter_all.
  intros y Hy. apply negb_true_iff, String.eqb_neq. congruence.
Qed.

Lemma unique_app (l1 l2 : list string) :
  unique (l1 ++ l2)
  = unique l1
    ++ filter (fun y => negb (existsb (String.eqb y) l1)) (unique l2).
Proof.
  induction l1 as [| x l1 IH].
  - cbn. symmetry. now apply filter_all.
  - cbn [app unique]. rewrite IH, filter_app, filter_filter.
    cbn [app]. do 2 f_equal. apply filter_ext. intros y.
    cbn [existsb]. rewrite negb_orb, andb_comm. f_equal.
    now rewrite String.eqb_sym.
Qed.

(** Elements already seen add nothing. *)
Lemma unique_app_absorb (l1 l2 : list string) :
  (forall y, In y l2 -> In y l1) -> unique (l1 ++ l2) = unique l1.
Proof.
  intros H. rewrite unique_app, filter_none; [apply app_nil_r |].
  intros y Hy. apply unique_In, H in Hy.
  apply negb_false_iff, existsb_exists. exists y. split; trivial.
  apply String.eqb_refl.
Qed.

Lemma unique_concat_const {A : Type} (names : list string) (l : list A) :
  NoDup names -> l <> [] ->
  unique (concat (map (fun _ => names) l)) = names.
Proof.
  intros Hn Hl. destruct l as [| a l]; [congruence |].
  cbn [map concat]. rewrite unique_app_absorb; [now apply unique_NoDup |].
  intros y Hy. apply in_concat in Hy as (l' & Hl' & Hy).
  apply in_map_iff in Hl' as (_ & <- & _). exact Hy.
Qed.

Lemma dict_get_In {V : Type} (d : list (string * V)) (k : string) (v : V) :
  NoDup (map fst d) -> In (k, v) d -> dict_get k d = Some v.
Proof.
  induction d as [| [k' v'] d IH]; intros Hn Hin; [contradiction |].
  cbn [map fst] in Hn. inversion Hn as [| ? ? Hk Hd]; subst.
  cbn [dict_get]. destruct Hin as [[= -> ->] | Hin].
  - now rewrite String.eqb_refl.
  - destruct (String.eqb_spec k k') as [-> | _]; [| now apply IH].
    exfalso. apply Hk. change k' with (fst (k', v)). now apply in_map.
Qed.

End DictFacts.

Section FetchFacts.

Variable rt : Runtime.

Lemma record_cell (names : list string) (rec : list (string * string)) j :
  map fst rec = names -> NoDup names -> (j < List.length names)%nat ->
  exists k v,
    nth_error rec j = Some (k, v)
    /\ nth j (map (fun c => dict_get c rec) names) None = Some v.
Proof.
  intros Hk Hn Hj.
  assert (Hl : (j < List.length rec)%nat) by now rewrite <- Hk, length_map in Hj.
  destruct (nth_error rec j) as [[k v] |] eqn:E;
    [| apply nth_error_None in E; lia].
  exists k, v. split; [reflexivity |].
  rewrite (nth_indep _ None (dict_get EmptyString rec))
    by now rewrite length_map.
  rewrite (map_nth (fun c => dict_get c rec)).
  assert (Hnth : nth j names EmptyString = k).
  { apply nth_error_nth. rewrite <- Hk, nth_error_map, E. reflexivity. }
  rewrite Hnth. apply dict_get_In; [now rewrite Hk |].
  eapply nth_error_In, E.
Qed.

Lemma from_dict_index_regular names series :
  regular_series names series ->
  from_dict_index series
  = mk_object_table names (map fst series)
      (map (fun r => map (fun c => dict_get c (snd r)) names) series).
Proof.
  intros (Hne & Hts & Hn & Hlen & Hrec). unfold from_dict_index.
  assert (Hcols : unique (concat (map (fun r => map fst (snd r)) series))
                  = names).
  { rewrite (map_ext_in _ (fun _ => names)) by exact Hrec.
    now apply unique_concat_const. }
  now rewrite Hcols.
Qed.

Lemma astype_float_regular names series :
  regular_series names series -> all_numeric rt series = true ->
  astype_float rt
    (mk_object_table names (map fst series)
       (map (fun r => map (fun c => dict_get c (snd r)) names) series))
  = Return (map (bar_of_record rt) series).
Proof.
  intros (Hne & Hts & Hn & Hlen & Hrec) Hnum. unfold astype_float.
  assert (Hcell : forall r j, In r series -> (j < 5)%nat ->
            exists k v,
              nth_error (snd r) j = Some (k, v)
              /\ nth j (map (fun c => dict_get c (snd r)) names) None = Some v
              /\ exists x, float_of_str rt v = Some x).
  { intros r j Hr Hj.
    destruct (@record_cell names (snd r) j (Hrec r Hr) Hn ltac:(lia))
      as (k & v & E & Hv).
    exists k, v. repeat split; trivial.
    unfold all_numeric in Hnum. rewrite forallb_forall in Hnum.
    specialize (Hnum r Hr). rewrite forallb_forall in Hnum.
    specialize (Hnum (k, v) (nth_error_In _ _ E)). cbn [snd] in Hnum.
    destruct (float_of_str rt v) as [x |]; [now exists x | discriminate]. }
  rewrite find_none.
  - cbn [index cells]. rewrite combine_map, map_map. f_equal. apply map_ext_in.
    intros r Hr. unfold bar_of_record. cbn [fst snd].
    destruct (Hcell r 0%nat Hr ltac:(lia)) as (k0 & v0 & E0 & C0 & x0 & F0).
    destruct (Hcell r 1%nat Hr ltac:(lia)) as (k1 & v1 & E1 & C1 & x1 & F1).
    destruct (Hcell r 2%nat Hr ltac:(lia)) as (k2 & v2 & E2 & C2 & x2 & F2).
    destruct (Hcell r 3%nat Hr ltac:(lia)) as (k3 & v3 & E3 & C3 & x3 & F3).
    destruct (Hcell r 4%nat Hr ltac:(lia)) as (k4 & v4 & E4 & C4 & x4 & F4).
    rewrite E0, E1, E2, E3, E4, C0, C1, C2, C3, C4.
    cbn [cell_float]. now rewrite F0, F1, F2, F3, F4.
  - intros c Hc. unfold cells_by_column in Hc. cbn [columns cells] in Hc.
    apply in_concat in Hc as (col & Hcol & Hc).
    apply in_map_iff in Hcol as (j & <- & Hj). apply in_seq in Hj.
    apply in_map_iff in Hc as (row & <- & Hrow).
    apply in_map_iff in Hrow as (r & <- & Hr).
    destruct (Hcell r j Hr ltac:(lia)) as (k & v & _ & C & x & F).
    rewrite C. cbn [cell_float]. now rewrite F.
Qed.

(** [fetch_historical_data] by cases on the answer to its one request. *)
Lemma fetch_cases (symbol : string) (s : pstate) :
  fetch_historical_data rt symbol s =
  let url := request_url rt symbol in
  let w := env s in
  let s1 :=
    mk_pstate (self s)
      (mk_world (stdout w) (requests w ++ [url]) (clock w) (draws w)) in
  match http_get_json rt url with
  | Raise e => (Raise e, s1)
  | Return data =>
      match dict_get alpha_vantage_key data with
      | None => (Raise fetch_failed, s1)
      | Some v => (dataframe_of rt v, s1)
      end
  end.
Proof.
  unfold fetch_historical_data, bind, requests_get_json, dict_contains, raise.
  cbn [get_world set_world pstate_HasWorld].
  destruct (http_get_json rt (request_url rt symbol)) as [data | e];
    [| reflexivity].
  destruct (dict_get alpha_vantage_key data); reflexivity.
Qed.


End FetchFacts.

(** ** Claims on [fetch_historical_data] and [train] *)




(** A series whose records do not all carry the same fields is not turned
    away: when the fields add up to five columns, the table is returned
    with an undefined value where a record lacks a field. *)
Example fetch_irregular_records_scenario :
  let series :=
    [("a", Samples.record "7" "3");
     ("b", [("1. open", "8"); ("2. high", "8"); ("3. low", "8");
            ("4. close", "8")])]%string in
  let rt := Samples.runtime (Return zero)
              (Return [(alpha_vantage_key, JSeries series)]) in
  fst (fetch_historical_data rt "AAPL" Samples.state0)
  = Return [mk_bar "a" (of_Z 7) (of_Z 7) (of_Z 7) (of_Z 7) (of_Z 3);
            mk_bar "b" (of_Z 8) (of_Z 8) (of_Z 8) (of_Z 8) nan].
Proof. vm_compute. reflexivity. Qed.

Lemma fetch_keeps_self (rt : Runtime) (symbol : string) (s : pstate) :
  self (snd (fetch_historical_data rt symbol s)) = self s.
Proof.
  rewrite fetch_cases. cbv zeta.
  destruct (http_get_json rt _) as [data | e]; [| reflexivity].
  destruct (dict_get _ data); reflexivity.
Qed.

Lemma train_cases (rt : Runtime) (pad : bool) (symbol : string) (s : pstate) :
  train rt pad symbol s =
  let run := fetch_historical_data rt symbol s in
  let s1 := snd run in
  let names := features (self s1) in
  let n := List.length names in
  let with_estimators m sc := mk_pstate (mk_predictor m sc names) (env s1) in
  match fst run with
  | Raise e => (Raise e, s1)
  | Return df =>
      match training_data names (prepare_features pad df) with
      | Raise e => (Raise e, s1)
      | Return Xy =>
          match Sklearn.fit_transform n (fst Xy) with
          | Raise e => (Raise e, with_estimators (model (self s1)) Unfitted)
          | Return r =>
              match Sklearn.fit rt n (snd r) (snd Xy) with
              | Raise e => (Raise e, with_estimators (model (self s1)) (fst r))
              | Return m => (Return tt, with_estimators m (fst r))
              end
          end
      end
  end.
Proof.
  unfold train. unfold bind at 1. cbv zeta.
  destruct (fetch_historical_data rt symbol s) as [[df | e] s1];
    cbn [fst snd]; [| reflexivity].
  unfold bind at 1. unfold bind at 1. unfold lift_result at 1.
  destruct (training_data _ _) as [Xy | e]; [| reflexivity].
  unfold bind at 1, scaler_fit_transform, model_fit.
  unfold bind, set_scaler, set_model, lift_result, ret.
  cbn [self env model scaler features].
  destruct (Sklearn.fit_transform _ _) as [r | e]; [| reflexivity].
  cbn [fst snd].
  destruct (Sklearn.fit rt _ _ _) as [m | e]; reflexivity.
Qed.

Lemma removelast_short {A : Type} (l : list A) :
  (List.length l < 2)%nat -> removelast l = [].
Proof.
  destruct l as [| x [| y l]]; cbn; trivial. lia.
Qed.

(** C8, as stated, fails: with 21 regular rows two rows survive, which is a
    single training example, and [train] completes without any error. *)
Lemma train_single_example_counterexample :
  let rt := Samples.runtime (Return zero) (Return (Samples.series_response 21)) in
  exists df X y,
    fst (fetch_historical_data rt "AAPL" Samples.state0) = Return df
    /\ training_data default_features (prepare_features false df) = Return (X, y)
    /\ List.length X = 1%nat
    /\ fst (train rt false "AAPL" Samples.state0) = Return tt.
Proof.
  intros rt. do 3 eexists.
  split; [vm_compute; reflexivity |].
  split; [vm_compute; reflexivity |].
  split; vm_compute; reflexivity.
Qed.

(** C8 (amended): [train] has no check of its own on the number of
    examples.  It propagates the exception of the fetch step; and when
    fewer than two rows survive the feature derivation, so that no training
    example remains, it fails with the [ValueError] that the scaler raises
    on a matrix without rows. *)
Theorem train_failures (rt : Runtime) (pad : bool) (symbol : string)
    (s : pstate) :
  let run := train rt pad symbol s in
  (forall e,
     fst (fetch_historical_data rt symbol s) = Raise e -> fst run = Raise e)
  /\ (forall df,
        fst (fetch_historical_data rt symbol s) = Return df ->
        features (self s) = default_features ->
        (List.length (prepare_features pad df) < 2)%nat ->
        fst run
        = Raise (PyException "ValueError"
                   "Found array with 0 sample(s) (shape=(0, 5)) while a minimum of 1 is required by StandardScaler.")).
Proof.
  cbv zeta. pose proof (fetch_keeps_self rt symbol s) as Hself. split.
  - intros e He. unfold train, bind at 1.
    destruct (fetch_historical_data rt symbol s) as [r s1].
    cbn [fst] in He. now rewrite He.
  - intros df Hdf Hf Hlen. unfold train, bind at 1.
    destruct (fetch_historical_data rt symbol s) as [r s1].
    cbn [fst snd] in Hdf, Hself. rewrite Hdf.
    unfold bind at 1. rewrite Hself, Hf.
    unfold bind at 1. unfold lift_result at 1.
    rewrite training_data_default. cbn [fst snd].
    rewrite (removelast_short _ Hlen). reflexivity.
Qed.

Lemma train_failures_witness :
  let rt := Samples.runtime (Return zero) (Return (Samples.series_response 20)) in
  exists df,
    fst (fetch_historical_data rt "AAPL" Samples.state0) = Return df
    /\ (List.length (prepare_features false df) < 2)%nat
    /\ fst (train rt false "AAPL" Samples.state0)
       = Raise (PyException "ValueError"
                  "Found array with 0 sample(s) (shape=(0, 5)) while a minimum of 1 is required by StandardScaler.").
Proof.
  intros rt. eexists.
  assert (H1 : fst (fetch_historical_data rt "AAPL" Samples.state0)
               = Return (map (bar_of_record rt)
                           (map (fun i => (string_of_nat i, Samples.record "7" "3"))
                              (seq 0 20))))
    by (vm_compute; reflexivity).
  split; [exact H1 |].
  assert (H2 : (List.length (prepare_features false
                  (map (bar_of_record rt)
                     (map (fun i => (string_of_nat i, Samples.record "7" "3"))
                        (seq 0 20)))) < 2)%nat)
    by (vm_compute; repeat constructor).
  split; [exact H2 |].
  exact (proj2 (@train_failures rt false "AAPL" Samples.state0) _ H1 eq_refl H2).
Defined.

(** C9: in [train], on a predictor that has the constructor's feature list,
    the training set is built from the table [prepare_features] returns for
    the fetched data.  There is one example for each retained row except the
    last: its input is the row's five base values [open], [high], [low],
    [close], [volume] and its label is the close of the next retained row,
    so there are [rows - 1] examples.  These inputs are what the scaler is
    fitted on, and the scaled inputs with these labels are what the model is
    fitted on; the estimators are left as the two fits leave them. *)
Theorem train_examples (rt : Runtime) (pad : bool) (symbol : string)
    (s s1 : pstate) (df : DataFrame) :
  fetch_historical_data rt symbol s = (Return df, s1) ->
  features (self s) = features PricePredictor_init ->
  let rows := prepare_features pad df in
  let fitted m sc :=
    mk_pstate (mk_predictor m sc (features (self s))) (env s1) in
  exists X y,
    List.length X = (List.length rows - 1)%nat
    /\ List.length y = (List.length rows - 1)%nat
    /\ (forall i r r',
          nth_error rows i = Some r -> nth_error rows (S i) = Some r' ->
          nth_error X i
          = Some [open (base r); high (base r); low (base r);
                  close (base r); volume (base r)]
          /\ nth_error y i = Some (close (base r')))
    /\ train rt pad symbol s
       = match Sklearn.fit_transform 5 X with
         | Raise e => (Raise e, fitted (model (self s)) Unfitted)
         | Return (sc, Xs) =>
             match Sklearn.fit rt 5 Xs y with
             | Raise e => (Raise e, fitted (model (self s)) sc)
             | Return m => (Return tt, fitted m sc)
             end
         end.
Proof.
  intros Hfetch Hf. cbv zeta.
  destruct (training_data_examples (prepare_features pad df))
    as (X & y & E & LX & Ly & Hex).
  exists X, y. split; [exact LX |]. split; [exact Ly |]. split; [exact Hex |].
  rewrite train_cases. cbv zeta.
  pose proof (fetch_keeps_self rt symbol s) as Hself.
  rewrite Hfetch in *. cbn [fst snd] in *.
  rewrite Hself, Hf, E. cbn [fst snd].
  change (List.length (features PricePredictor_init)) with 5%nat.
  destruct (Sklearn.fit_transform 5 X) as [[sc Xs] | e]; reflexivity.
Qed.

Lemma train_examples_witness :
  let rt := Samples.runtime (Return zero) (Return (Samples.series_response 22)) in
  exists df s1,
    fetch_historical_data rt "AAPL" Samples.state0 = (Return df, s1)
    /\ features (self Samples.state0) = features PricePredictor_init
    /\ exists X y,
         List.length X = (List.length (prepare_features true df) - 1)%nat
         /\ nth_error X 1
            = Some [of_Z 7; of_Z 7; of_Z 7; of_Z 7; of_Z 3]
         /\ nth_error y 1 = Some (of_Z 7).
Proof.
  intros rt.
  assert (Hfetch : exists df s1,
            fetch_historical_data rt "AAPL" Samples.state0 = (Return df, s1))
    by (do 2 eexists; vm_compute; reflexivity).
  destruct Hfetch as (df & s1 & Hfetch).
  exists df, s1. split; [exact Hfetch |]. split; [reflexivity |].
  destruct (@train_examples rt true "AAPL" Samples.state0 s1 df Hfetch eq_refl)
    as (X & y & LX & _ & Hex & _).
  exists X, y. split; [exact LX |].
  assert (Hdf : df = map (fun i => mk_bar (string_of_nat i) (of_Z 7) (of_Z 7)
                            (of_Z 7) (of_Z 7) (of_Z 3)) (seq 0 22)).
  { assert (E : fst (fetch_historical_data rt "AAPL" Samples.state0)
                = Return df) by now rewrite Hfetch.
    vm_compute in E. injection E as <-. vm_compute. reflexivity. }
  assert (H1 : exists r, nth_error (prepare_features true df) 1 = Some r
                         /\ base_values (base r)
                            = [of_Z 7; of_Z 7; of_Z 7; of_Z 7; of_Z 3])
    by (rewrite Hdf; eexists; split; vm_compute; reflexivity).
  assert (H2 : exists r, nth_error (prepare_features true df) 2 = Some r
                         /\ close (base r) = of_Z 7)
    by (rewrite Hdf; eexists; split; vm_compute; reflexivity).
  destruct H1 as (r & H1 & Hr), H2 as (r' & H2 & Hr').
  destruct (Hex 1%nat r r' H1 H2) as [HX Hy].
  rewrite <- Hr, <- Hr'. split; [exact HX | exact Hy].
Defined.

(** ** A worked scenario

    Twenty-five rows of strictly increasing closes with a constant volume:
    six rows are returned, both averages lie below the close of their row
    and the volume momentum is zero throughout. *)
Example increasing_closes_scenario :
  let df :=
    map (fun i => mk_bar (string_of_nat i) (of_nat (100 + i)) (of_nat (100 + i))
                    (of_nat (100 + i)) (of_nat (100 + i)) (of_Z 5000))
        (seq 0 25) in
  let out := prepare_features false df in
  List.length out = 6%nat
  /\ forallb (fun r => SFltb (SMA_5 r) (close (base r))
                       && SFltb (SMA_20 r) (close (base r))
                       && iszero (volume_momentum r)) out = true.
Proof. vm_compute. auto. Qed.

(** * Further properties *)

(** ** [prepare_features] on arbitrary tables *)

(** X1: whatever the table holds, [prepare_features] returns at most
    [rows - 19] rows, and every returned row is an input row from the
    twentieth on with all ten values defined. *)
Theorem prepare_features_only_ready_rows (pad : bool) (df : DataFrame) :
  (List.length (prepare_features pad df) <= List.length df - 19)%nat
  /\ forall r,
       In r (prepare_features pad df) ->
       row_defined r = true
       /\ exists i, (19 <= i)%nat /\ nth_error df i = Some (base r).
Proof.
  split; [apply length_prepare_features_le |].
  intros r Hr. unfold prepare_features, dropna in Hr.
  apply filter_In in Hr as [Hin Hdef]. split; [exact Hdef |].
  apply In_nth_error in Hin as [i Hi]. exists i. split.
  - destruct (Nat.leb_spec 19 i) as [| Hlt]; trivial.
    rewrite (warm_up_row pad df (i := i) Hi Hlt) in Hdef. discriminate.
  - now apply add_indicators_nth_error in Hi.
Qed.

Lemma prepare_features_only_ready_rows_witness :
  let df := MoreSamples.missing_close_table in
  exists r,
    In r (prepare_features true df)
    /\ row_defined r = true
    /\ exists i, (19 <= i)%nat /\ nth_error df i = Some (base r).
Proof.
  intros df.
  assert (H : exists r, In r (prepare_features true df)).
  { eexists. vm_compute. left. reflexivity. }
  destruct H as [r Hr]. exists r. split; [exact Hr |].
  exact (proj2 (prepare_features_only_ready_rows true df) r Hr).
Defined.

Lemma map_combine_seq_fst {A B : Type} (g : nat -> B) (l : list A) :
  forall a,
    map (fun ib : nat * A => g (fst ib)) (combine (seq a (List.length l)) l)
    = map g (seq a (List.length l)).
Proof.
  induction l as [| x l IH]; intros a; [reflexivity |].
  cbn [List.length seq combine map fst]. now rewrite IH.
Qed.

(** The derived columns as functions of the close and volume columns. *)
Lemma derived_values_add_indicators (pad : bool) (df : DataFrame) :
  map derived_values (add_indicators pad df)
  = map (fun i =>
           [nth i (Pandas.rolling_mean 5 (map close df)) nan;
            nth i (Pandas.rolling_mean 20 (map close df)) nan;
            nth i (Pandas.pct_change pad (map close df)) nan;
            nth i (Pandas.pct_change pad (map volume df)) nan;
            nth i (Pandas.rolling_std 5 (map close df)) nan])
        (seq 0 (List.length (map close df))).
Proof.
  unfold add_indicators. rewrite map_map, length_map.
  rewrite <- map_combine_seq_fst with (l := df).
  apply map_ext. now intros [i b].
Qed.

(** X2: the five derived columns read the close and the volume only: two
    tables with the same closes and the same volumes get the same derived
    values on every row, whatever their [open], [high], [low] and
    timestamps are. *)
Theorem indicators_read_close_and_volume (pad : bool) (df df' : DataFrame) :
  map close df = map close df' ->
  map volume df = map volume df' ->
  map derived_values (add_indicators pad df)
  = map derived_values (add_indicators pad df').
Proof.
  intros Hc Hv. rewrite !derived_values_add_indicators.
  now rewrite Hc, Hv.
Qed.

Lemma indicators_read_close_and_volume_witness :
  let df := Samples.flat_table 21 7 3 in
  let df' :=
    map (fun b => mk_bar "x" (of_Z 1) (of_Z 9) nan (close b) (volume b)) df in
  map close df = map close df'
  /\ map volume df = map volume df'
  /\ map derived_values (add_indicators false df)
     = map derived_values (add_indicators false df').
Proof.
  intros df df'.
  assert (Hc : map close df = map close df') by (vm_compute; reflexivity).
  assert (Hv : map volume df = map volume df') by (vm_compute; reflexivity).
  split; [exact Hc |]. split; [exact Hv |].
  exact (@indicators_read_close_and_volume false df df' Hc Hv).
Defined.

(** X3: an undefined close removes twenty rows: the row that holds it and
    the nineteen rows after it are all dropped, since the 20-row average of
    each of them has the undefined value in its window. *)
Theorem undefined_close_drops_twenty_rows (pad : bool) (df : DataFrame)
    (j i : nat) (b : bar) (r : feature_row) :
  nth_error df j = Some b -> isnan (close b) = true ->
  (j <= i)%nat -> (i < j + 20)%nat ->
  nth_error (add_indicators pad df) i = Some r ->
  ~ In r (prepare_features pad df).
Proof.
  intros Hb Hnan Hji Hij Hr Hin.
  unfold prepare_features, dropna in Hin. apply filter_In in Hin as [_ Hdef].
  apply add_indicators_nth_error in Hr as (Hi & _ & _ & H20 & _).
  rewrite row_defined_split in Hdef. apply andb_true_iff in Hdef as [_ Hd].
  apply derived_defined_iff in Hd as (_ & Hn & _).
  rewrite H20 in Hn. unfold Pandas.rolling_at, Pandas.window in Hn.
  destruct (Nat.ltb_spec (i + 1) 20) as [| Hw]; [discriminate |].
  set (win := firstn 20 (skipn (i + 1 - 20) (map close df))) in Hn.
  assert (E : forallb isfinite win = false).
  { apply not_true_iff_false. intros E. rewrite forallb_forall in E.
    assert (Hin : In (close b) win).
    { apply (nth_error_In win (j - (i + 1 - 20))). unfold win.
      rewrite nth_error_firstn.
      destruct (Nat.ltb_spec (j - (i + 1 - 20)) 20) as [_ |]; [| lia].
      rewrite nth_error_skipn, nth_error_map.
      replace (i + 1 - 20 + (j - (i + 1 - 20)))%nat with j by lia.
      now rewrite Hb. }
    apply E in Hin. destruct (close b); discriminate. }
  rewrite E in Hn. discriminate.
Qed.

Lemma undefined_close_drops_twenty_rows_witness :
  let df := MoreSamples.missing_close_table in
  exists b r,
    nth_error df 1 = Some b /\ isnan (close b) = true
    /\ nth_error (add_indicators true df) 20 = Some r
    /\ ~ In r (prepare_features true df).
Proof.
  intros df.
  assert (Hb : exists b, nth_error df 1 = Some b /\ isnan (close b) = true)
    by (eexists; split; vm_compute; reflexivity).
  assert (Hr : exists r, nth_error (add_indicators true df) 20 = Some r)
    by (eexists; vm_compute; reflexivity).
  destruct Hb as (b & Hb & Hnan), Hr as (r & Hr).
  exists b, r. split; [exact Hb |]. split; [exact Hnan |]. split; [exact Hr |].
  exact (@undefined_close_drops_twenty_rows true df 1 20 b r Hb Hnan
           ltac:(lia) ltac:(lia) Hr).
Defined.

Lemma of_Z_one : of_Z 1 = S754_finite false 4503599627370496 (-52).
Proof. vm_compute. reflexivity. Qed.

(** X4: a bar that follows a bar without volume gets an infinite volume
    momentum, not an undefined one, so [dropna] does not remove the row on
    that account. *)
Theorem volume_after_zero_is_infinite (pad : bool) (df : DataFrame)
    (i : nat) (b0 b1 : bar) (r : feature_row) :
  forallb isfinite (map volume df) = true ->
  nth_error df i = Some b0 -> nth_error df (S i) = Some b1 ->
  iszero (volume b0) = true -> iszero (volume b1) = false ->
  nth_error (add_indicators pad df) (S i) = Some r ->
  isinf (volume_momentum r) = true.
Proof.
  intros Hfin H0 H1 Hz0 Hz1 Hr.
  apply add_indicators_nth_error in Hr as (Hi & _ & _ & _ & _ & Hvm & _).
  rewrite Hvm, pct_change_nth by (trivial; now rewrite length_map).
  assert (E1 : nth (S i) (map volume df) nan = volume b1)
    by (apply nth_error_nth; now rewrite nth_error_map, H1).
  assert (E0 : nth i (map volume df) nan = volume b0)
    by (apply nth_error_nth; now rewrite nth_error_map, H0).
  assert (F1 : isfinite (volume b1) = true).
  { rewrite <- E1. apply forallb_nth; trivial. now rewrite length_map. }
  rewrite E0, E1, of_Z_one.
  destruct (volume b0) as [s0 | | |]; try discriminate.
  destruct (volume b1) as [| | | s1 m1 e1]; try discriminate.
  reflexivity.
Qed.

Lemma volume_after_zero_is_infinite_witness :
  let df := MoreSamples.zero_volume_bar_table in
  exists r,
    nth_error (add_indicators false df) 20 = Some r
    /\ isinf (volume_momentum r) = true
    /\ In r (prepare_features false df).
Proof.
  intros df.
  assert (Hb0 : exists b, nth_error df 19 = Some b /\ iszero (volume b) = true)
    by (eexists; split; vm_compute; reflexivity).
  assert (Hb1 : exists b, nth_error df 20 = Some b /\ iszero (volume b) = false)
    by (eexists; split; vm_compute; reflexivity).
  assert (Hr : exists r, nth_error (add_indicators false df) 20 = Some r
                         /\ In r (prepare_features false df)).
  { eexists. split; [vm_compute; reflexivity |].
    vm_compute. right. left. reflexivity. }
  destruct Hb0 as (b0 & Hb0 & Hz0), Hb1 as (b1 & Hb1 & Hz1), Hr as (r & Hr & Hin).
  exists r. split; [exact Hr |]. split; [| exact Hin].
  refine (@volume_after_zero_is_infinite false df 19 b0 b1 r _ Hb0 Hb1 Hz0 Hz1 Hr).
  vm_compute. reflexivity.
Defined.

(** ** The command line as a whole *)

Lemma main_cases (rt : Runtime) (argv : list string) (w : world) :
  main rt argv w =
  if negb (List.length argv =? 2)%nat then
    (Raise (SystemExit 1),
     mk_world
       (stdout w
        ++ [json_dumps rt (error_record usage (isoformat_now rt (clock w)))])
       (requests w) (S (clock w)) (draws w))
  else
    let run := predict rt (nth 1 argv EmptyString)
                 (mk_pstate PricePredictor_init w) in
    match fst run with
    | Return b => (Raise (SystemExit (if b then 0 else 1)), env (snd run))
    | Raise e => (Raise e, env (snd run))
    end.
Proof.
  unfold main. destruct (negb _); [reflexivity |].
  unfold bind, call_method. cbv zeta.
  destruct (predict rt _ _) as [[b | e] s]; reflexivity.
Qed.

Lemma predict_footprint (faults : Faults.schedule) (rt : Runtime)
    (symbol : string) (s : Faults.run_state pstate) :
  let run := Faults.predict faults rt symbol s in
  requests (env (Faults.program (snd run))) = requests (env (Faults.program s))
  /\ self (Faults.program (snd run)) = self (Faults.program s)
  /\ exists lines,
       stdout (env (Faults.program (snd run)))
       = (stdout (env (Faults.program s)) ++ lines)%list
       /\ (List.length lines <= 2)%nat.
Proof.
  cbv zeta. unfold Faults.predict, try_except_Exception.
  assert (Htry :
    let tried := Faults.predict_try faults rt s in
    requests (env (Faults.program (snd tried)))
    = requests (env (Faults.program s))
    /\ self (Faults.program (snd tried)) = self (Faults.program s)
    /\ exists lines,
         stdout (env (Faults.program (snd tried)))
         = (stdout (env (Faults.program s)) ++ lines)%list
         /\ (List.length lines <= 1)%nat).
  { cbv zeta. rewrite predict_try_cases. cbv zeta.
    repeat match goal with
           | |- context [match ?x with _ => _ end] => destruct x
           end; cbn [fst snd Faults.program env self requests stdout];
      (split; [reflexivity |]); (split; [reflexivity |]);
      solve [ exists []; rewrite app_nil_r; split; [reflexivity | cbn; lia]
            | eexists [_]; split; [reflexivity | cbn; lia] ]. }
  assert (Hexc : forall e s1,
    let handled := Faults.predict_except faults rt e s1 in
    requests (env (Faults.program (snd handled)))
    = requests (env (Faults.program s1))
    /\ self (Faults.program (snd handled)) = self (Faults.program s1)
    /\ exists lines,
         stdout (env (Faults.program (snd handled)))
         = (stdout (env (Faults.program s1)) ++ lines)%list
         /\ (List.length lines <= 1)%nat).
  { intros e s1. cbv zeta. rewrite predict_except_cases. cbv zeta.
    repeat match goal with
           | |- context [match ?x with _ => _ end] => destruct x
           end; cbn [fst snd Faults.program env self requests stdout];
      (split; [reflexivity |]); (split; [reflexivity |]);
      solve [ exists []; rewrite app_nil_r; split; [reflexivity | cbn; lia]
            | eexists [_]; split; [reflexivity | cbn; lia] ]. }
  cbv zeta in Htry.
  destruct (Faults.predict_try faults rt s) as [[b | e] s1]; cbn [fst snd] in *.
  - destruct Htry as (Hr & Hs & lines & Ho & Hl).
    split; [exact Hr |]. split; [exact Hs |]. exists lines. split; [exact Ho | lia].
  - destruct Htry as (Hr & Hs & lines & Ho & Hl).
    destruct (is_Exception e).
    + destruct (Hexc e s1) as (Hr' & Hs' & lines' & Ho' & Hl').
      split; [congruence |]. split; [congruence |].
      exists (lines ++ lines')%list. rewrite Ho', Ho, app_assoc.
      split; [reflexivity |]. rewrite length_app. lia.
    + cbn [fst snd]. split; [exact Hr |]. split; [exact Hs |].
      exists lines. split; [exact Ho | lia].
Qed.

(** With nothing scheduled the run is the one described by [main]. *)
Lemma main_quiet (rt : Runtime) (argv : list string) (w : world) (k : nat) :
  let run := Faults.main Faults.quiet rt argv (Faults.mk_run_state w k) in
  fst run = fst (main rt argv w)
  /\ Faults.program (snd run) = snd (main rt argv w).
Proof.
  cbv zeta. rewrite main_cases. unfold Faults.main.
  pose proof (predict_quiet rt (nth 1 argv EmptyString)
                (mk_pstate PricePredictor_init w) (S k)) as Hp.
  cbv zeta in Hp.
  assert (Hq : forall n, Faults.quiet n = None) by reflexivity.
  generalize dependent Faults.quiet. intros q Hp Hq.
  destruct (negb _).
  - unfold bind, Faults.at_point, datetime_now_isoformat, print,
      ret, sys_exit, raise.
    step. rewrite !Hq. destruct w. split; reflexivity.
  - cbv zeta.
    unfold bind, Faults.at_point, ret, Faults.call_method, sys_exit, raise.
    step. rewrite Hq.
    destruct (Faults.predict q rt _ _) as [r s1].
    cbn [fst snd] in Hp. destruct Hp as [Hr Hs]. rewrite <- Hr, <- Hs.
    destruct r as [b | e]; step; rewrite ?Hq; split; reflexivity.
Qed.

(** X5: whatever the arguments are and whatever exception arrives at
    whatever statement, the process makes no request and never falls off
    the end of the script: the run ends with the [SystemExit] of [sys.exit]
    or with an exception that reaches the top level, and at most two lines
    have been written by then. *)
Theorem main_outcomes (faults : Faults.schedule) (rt : Runtime)
    (argv : list string) (s : Faults.run_state world) :
  let run := Faults.main faults rt argv s in
  requests (Faults.program (snd run)) = requests (Faults.program s)
  /\ (exists e, fst run = Raise e)
  /\ exists lines,
       stdout (Faults.program (snd run))
       = (stdout (Faults.program s) ++ lines)%list
       /\ (List.length lines <= 2)%nat.
Proof.
  cbv zeta. destruct s as [[out req clk drw] k]. unfold Faults.main.
  destruct (negb _).
  - unfold bind, Faults.at_point, datetime_now_isoformat, print, ret, sys_exit,
      raise.
    step.
    destruct (faults k).
    { cbn [fst snd Faults.program requests stdout].
      split; [reflexivity |]. split; [eexists; reflexivity |].
      exists []. rewrite app_nil_r. split; [reflexivity | cbn; lia]. }
    step. destruct (faults (S k)).
    { cbn [fst snd Faults.program requests stdout].
      split; [reflexivity |]. split; [eexists; reflexivity |].
      exists []. rewrite app_nil_r. split; [reflexivity | cbn; lia]. }
    step. destruct (faults (S (S k))).
    { cbn [fst snd Faults.program requests stdout].
      split; [reflexivity |]. split; [eexists; reflexivity |].
      exists []. rewrite app_nil_r. split; [reflexivity | cbn; lia]. }
    step. destruct (faults (S (S (S k))));
      cbn [fst snd Faults.program requests stdout];
      (split; [reflexivity |]); (split; [eexists; reflexivity |]);
      eexists [_]; (split; [reflexivity | cbn; lia]).
  - unfold bind, Faults.at_point, ret, Faults.call_method, sys_exit, raise.
    step.
    destruct (faults k).
    { cbn [fst snd Faults.program requests stdout].
      split; [reflexivity |]. split; [eexists; reflexivity |].
      exists []. rewrite app_nil_r. split; [reflexivity | cbn; lia]. }
    step.
    pose proof (predict_footprint faults rt (nth 1 argv EmptyString)
      (Faults.mk_run_state
         (mk_pstate PricePredictor_init (mk_world out req clk drw)) (S k)))
      as Hp.
    cbv zeta in Hp. cbn [Faults.program env self requests stdout] in Hp.
    destruct (Faults.predict faults rt _ _) as [[b | e] s1];
      cbn [fst snd] in Hp; destruct Hp as (Hr & _ & lines & Ho & Hl); step.
    + destruct (faults (Faults.passed s1));
        cbn [fst snd Faults.program requests stdout];
        (split; [exact Hr |]); (split; [eexists; reflexivity |]);
        exists lines; (split; [exact Ho | exact Hl]).
    + cbn [fst snd Faults.program requests stdout].
      split; [exact Hr |]. split; [eexists; reflexivity |].
      exists lines. split; [exact Ho | exact Hl].
Qed.

(** ** The fetch step on malformed series *)

Section FetchEdgeFacts.

Variable rt : Runtime.

Lemma forallb_false_exists {A : Type} (f : A -> bool) (l : list A) :
  forallb f l = false -> exists x, In x l /\ f x = false.
Proof.
  induction l as [| x l IH]; [discriminate |].
  cbn [forallb]. destruct (f x) eqn:E; cbn [andb].
  - intros H. destruct (IH H) as (y & Hy & Hf). exists y. split; [now right | exact Hf].
  - intros _. exists x. split; [now left | exact E].
Qed.

Lemma columns_uniform names series :
  uniform_series names series -> columns (from_dict_index series) = names.
Proof.
  intros (Hne & Hn & Hrec). unfold from_dict_index. cbn [columns].
  rewrite (map_ext_in _ (fun _ => names)) by exact Hrec.
  now apply unique_concat_const.
Qed.

Lemma fetch_regular_series (symbol : string) (s : pstate) data names series :
  http_get_json rt (request_url rt symbol) = Return data ->
  dict_get alpha_vantage_key data = Some (JSeries series) ->
  regular_series names series ->
  dataframe_of rt (JSeries series)
  = astype_float rt
      (mk_object_table names (map fst series)
         (map (fun r => map (fun c => dict_get c (snd r)) names) series))
  /\ fst (fetch_historical_data rt symbol s) = dataframe_of rt (JSeries series).
Proof.
  intros Hget Hkey Hreg. split.
  - cbn [dataframe_of]. rewrite (from_dict_index_regular Hreg). cbn [columns].
    destruct Hreg as (_ & _ & _ & Hlen & _). now rewrite Hlen.
  - rewrite fetch_cases. cbv zeta. now rewrite Hget, Hkey.
Qed.

End FetchEdgeFacts.

(** X7: a field that is not the text of a number makes the fetch fail with
    a [ValueError], however many records are well formed. *)
Theorem fetch_non_numeric_field (rt : Runtime) (symbol : string) (s : pstate)
    (data : response) (names : list string)
    (series : list (string * list (string * string))) :
  http_get_json rt (request_url rt symbol) = Return data ->
  dict_get alpha_vantage_key data = Some (JSeries series) ->
  regular_series names series ->
  all_numeric rt series = false ->
  exists msg,
    fst (fetch_historical_data rt symbol s) = Raise (PyException "ValueError" msg).
Proof.
  intros Hget Hkey Hreg Hnum.
  destruct (fetch_regular_series rt symbol s Hget Hkey Hreg) as [Hdf ->].
  rewrite Hdf. clear Hdf.
  destruct Hreg as (Hne & Hts & Hn & Hlen & Hrec).
  unfold all_numeric in Hnum.
  apply forallb_false_exists in Hnum as (r & Hr & Hbad).
  apply forallb_false_exists in Hbad as ([k v] & Hkv & Hv). cbn [snd] in Hv.
  apply In_nth_error in Hkv as [j Hj].
  assert (Hj5 : (j < 5)%nat).
  { rewrite <- Hlen, <- (Hrec r Hr), length_map.
    apply nth_error_Some. congruence. }
  destruct (@record_cell names (snd r) j (Hrec r Hr) Hn ltac:(lia))
    as (k' & v' & E & Hc).
  rewrite Hj in E. injection E as <- <-.
  unfold astype_float.
  destruct (find _ _) as [bad |] eqn:F; [eauto |].
  exfalso.
  assert (Hin : In (Some v)
                  (cells_by_column
                     (mk_object_table names (map fst series)
                        (map (fun r => map (fun c => dict_get c (snd r)) names)
                           series)))).
  { unfold cells_by_column. cbn [columns cells]. apply in_concat.
    eexists. split.
    - apply in_map_iff. exists j. split; [reflexivity |].
      apply in_seq. lia.
    - apply in_map_iff. eexists. split; [| apply in_map_iff; eauto].
      exact Hc. }
  apply (List.find_none _ _ F) in Hin. cbn [cell_float] in Hin.
  destruct (float_of_str rt v); discriminate.
Qed.

Lemma fetch_non_numeric_field_witness :
  let series := MoreSamples.text_field_series in
  let rt := MoreSamples.runtime (Return (MoreSamples.response_of series)) in
  all_numeric rt series = false
  /\ exists msg,
       fst (fetch_historical_data rt "AAPL" Samples.state0)
       = Raise (PyException "ValueError" msg).
Proof.
  intros series rt.
  assert (H1 : http_get_json rt (request_url rt "AAPL")
               = Return (MoreSamples.response_of series)) by reflexivity.
  assert (H2 : dict_get alpha_vantage_key (MoreSamples.response_of series)
               = Some (JSeries series)) by reflexivity.
  assert (H3 : all_numeric rt series = false) by reflexivity.
  assert (H4 : regular_series (map fst (MoreSamples.record_open "7")) series).
  { unfold regular_series. repeat split.
    - discriminate.
    - repeat constructor; cbn; intuition discriminate.
    - repeat constructor; cbn; intuition discriminate.
    - intros r [<- | [<- | []]]; reflexivity. }
  split; [exact H3 |].
  exact (@fetch_non_numeric_field rt "AAPL" Samples.state0 _ _ _ H1 H2 H4 H3).
Defined.

(** X8: when the records do not have exactly five fields, or when the
    series is empty, the fetch fails with the [ValueError] of the column
    assignment, which names the number of columns found. *)
Theorem fetch_wrong_field_count (rt : Runtime) (symbol : string) (s : pstate)
    (data : response) :
  http_get_json rt (request_url rt symbol) = Return data ->
  (forall names series,
     dict_get alpha_vantage_key data = Some (JSeries series) ->
     uniform_series names series ->
     List.length names <> 5%nat ->
     fst (fetch_historical_data rt symbol s)
     = Raise (PyException "ValueError"
                ("Length mismatch: Expected axis has "
                 ++ string_of_nat (List.length names)
                 ++ " elements, new values have 5 elements")))
  /\ (dict_get alpha_vantage_key data = Some (JSeries []) ->
      fst (fetch_historical_data rt symbol s)
      = Raise (PyException "ValueError"
                 "Length mismatch: Expected axis has 0 elements, new values have 5 elements")).
Proof.
  intros Hget. split.
  - intros names series Hkey Hu Hlen.
    rewrite fetch_cases. cbv zeta. rewrite Hget, Hkey. cbn [fst dataframe_of].
    rewrite (columns_uniform Hu).
    apply Nat.eqb_neq in Hlen. now rewrite Hlen.
  - intros Hkey. rewrite fetch_cases. cbv zeta. now rewrite Hget, Hkey.
Qed.

Lemma fetch_wrong_field_count_witness :
  let series := MoreSamples.four_field_series in
  let rt := MoreSamples.runtime (Return (MoreSamples.response_of series)) in
  fst (fetch_historical_data rt "AAPL" Samples.state0)
  = Raise (PyException "ValueError"
             "Length mismatch: Expected axis has 4 elements, new values have 5 elements").
Proof.
  intros series rt.
  assert (H1 : http_get_json rt (request_url rt "AAPL")
               = Return (MoreSamples.response_of series)) by reflexivity.
  assert (H2 : dict_get alpha_vantage_key (MoreSamples.response_of series)
               = Some (JSeries series)) by reflexivity.
  assert (H3 : uniform_series ["1. open"; "2. high"; "3. low"; "4. close"]%string
                 series).
  { unfold uniform_series. repeat split.
    - discriminate.
    - repeat constructor; cbn; intuition discriminate.
    - intros r [<- | [<- | []]]; reflexivity. }
  exact (proj1 (@fetch_wrong_field_count rt "AAPL" Samples.state0 _ H1)
           _ _ H2 H3 ltac:(cbn; lia)).
Defined.

Lemma fetch_touches_only_requests_aux (rt : Runtime) (symbol : string)
    (s : pstate) :
  self (snd (fetch_historical_data rt symbol s)) = self s
  /\ same_world_but_requests (env s)
       (env (snd (fetch_historical_data rt symbol s))) (request_url rt symbol).
Proof.
  rewrite fetch_cases. cbv zeta. unfold same_world_but_requests.
  destruct (http_get_json rt _) as [data | e]; [| now repeat split].
  destruct (dict_get _ data); now repeat split.
Qed.

(** X9: the fetch step changes nothing but the request log: it writes no
    line, consults neither the clock nor the random generator, and leaves
    the predictor as it was, whether it returns or raises. *)
Theorem fetch_touches_only_requests (rt : Runtime) (symbol : string)
    (s : pstate) :
  let run := fetch_historical_data rt symbol s in
  self (snd run) = self s
  /\ same_world_but_requests (env s) (env (snd run)) (request_url rt symbol).
Proof.
  cbv zeta. apply fetch_touches_only_requests_aux.
Qed.

(** ** [train] step by step *)

(** X10: [train] writes no line, consults neither the clock nor the random
    generator, makes exactly one request and never changes the feature
    list; when the fetch step fails, the model and the scaler are left as
    they were. *)
Theorem train_touches_only_estimators (rt : Runtime) (pad : bool)
    (symbol : string) (s : pstate) :
  let run := train rt pad symbol s in
  same_world_but_requests (env s) (env (snd run)) (request_url rt symbol)
  /\ features (self (snd run)) = features (self s)
  /\ (forall e,
        fst (fetch_historical_data rt symbol s) = Raise e ->
        self (snd run) = self s).
Proof.
  cbv zeta. rewrite train_cases. cbv zeta.
  destruct (fetch_touches_only_requests_aux rt symbol s) as [Hself Hw].
  set (s1 := snd (fetch_historical_data rt symbol s)) in *.
  destruct (fst (fetch_historical_data rt symbol s)) as [df | e].
  - assert (Hno : forall m sc,
              same_world_but_requests (env s) (env s1) (request_url rt symbol)
              /\ features (self s) = features (self s)
              /\ (forall e : exn, Return df = Raise e ->
                   mk_predictor m sc (features (self s)) = self s)).
    { intros m sc. repeat split; try apply Hw. discriminate. }
    destruct (training_data _ _) as [Xy | e].
    + destruct (Sklearn.fit_transform _ _) as [r | e];
        [destruct (Sklearn.fit rt _ _ _) as [m | e] |];
        cbn [snd env self features]; rewrite Hself; apply Hno.
    + cbn [snd]. rewrite Hself. repeat split; try apply Hw; discriminate.
  - cbn [snd]. rewrite Hself. repeat split; try apply Hw; trivial.
Qed.

Lemma train_touches_only_estimators_witness :
  let rt := Samples.runtime (Return zero)
              (Raise (PyException "ConnectionError" "no route to host")) in
  fst (fetch_historical_data rt "AAPL" Samples.state0)
  = Raise (PyException "ConnectionError" "no route to host")
  /\ self (snd (train rt false "AAPL" Samples.state0)) = self Samples.state0.
Proof.
  intros rt.
  assert (H : fst (fetch_historical_data rt "AAPL" Samples.state0)
              = Raise (PyException "ConnectionError" "no route to host"))
    by reflexivity.
  split; [exact H |].
  exact (proj2 (proj2 (train_touches_only_estimators rt false "AAPL"
                         Samples.state0)) _ H).
Defined.

(** X11: when [train] returns, the scaler is fitted with five means and
    five scales, the model is trained, and the fetched table had at least
    21 rows: with fewer, no training example is left and [train] cannot
    complete. *)
Theorem train_success_state (rt : Runtime) (pad : bool) (symbol : string)
    (s s' : pstate) :
  train rt pad symbol s = (Return tt, s') ->
  features (self s) = default_features ->
  exists df means scales coef,
    fst (fetch_historical_data rt symbol s) = Return df
    /\ (21 <= List.length df)%nat
    /\ scaler (self s') = Fitted means scales
    /\ List.length means = 5%nat /\ List.length scales = 5%nat
    /\ model (self s') = Trained coef.
Proof.
  intros H Hf. rewrite train_cases in H. cbv zeta in H.
  rewrite (fetch_keeps_self rt symbol s), Hf in H.
  destruct (fst (fetch_historical_data rt symbol s)) as [df | e];
    [| discriminate].
  rewrite training_data_default in H. cbn [fst snd] in H.
  change (List.length default_features) with 5%nat in H.
  unfold Sklearn.fit_transform in H.
  destruct (Sklearn.check_array _ _ _ _) eqn:Ec; [| discriminate].
  cbn [fst snd] in H. unfold Sklearn.fit in H.
  destruct (Sklearn.check_array "LinearRegression" _ _ _); [| discriminate].
  destruct (negb (forallb isfinite _)); [discriminate |].
  injection H as <-. cbn [self scaler model].
  do 4 eexists. split; [reflexivity |].
  split; [| repeat split; now rewrite length_map, length_seq].
  unfold Sklearn.check_array in Ec.
  destruct (negb (forallb _ _)); [discriminate |].
  destruct (Nat.eqb_spec (List.length
              (map (fun r => base_values (base r))
                 (removelast (prepare_features pad df)))) 0) as [| Hne];
    [discriminate |].
  rewrite length_map, length_removelast in Hne.
  pose proof (length_prepare_features_le pad df). lia.
Qed.

Lemma train_success_state_witness :
  let rt := Samples.runtime (Return zero) (Return (Samples.series_response 22)) in
  exists s' df means scales coef,
    train rt true "AAPL" Samples.state0 = (Return tt, s')
    /\ fst (fetch_historical_data rt "AAPL" Samples.state0) = Return df
    /\ (21 <= List.length df)%nat
    /\ scaler (self s') = Fitted means scales
    /\ List.length means = 5%nat /\ List.length scales = 5%nat
    /\ model (self s') = Trained coef.
Proof.
  intros rt.
  assert (H : exists s', train rt true "AAPL" Samples.state0 = (Return tt, s'))
    by (eexists; vm_compute; reflexivity).
  destruct H as [s' H]. exists s'.
  destruct (@train_success_state rt true "AAPL" Samples.state0 s' H eq_refl)
    as (df & means & scales & coef & H').
  exists df, means, scales, coef. split; [exact H | exact H'].
Defined.

(** X12: end to end, a well-formed response with at most 20 records cannot
    train the model: no row or a single row survives the feature
    derivation, the training matrix is empty and [train] fails with the
    scaler's [ValueError]. *)
Theorem train_needs_21_bars (rt : Runtime) (pad : bool) (symbol : string)
    (s : pstate) (data : response) (names : list string)
    (series : list (string * list (string * string))) :
  http_get_json rt (request_url rt symbol) = Return data ->
  dict_get alpha_vantage_key data = Some (JSeries series) ->
  regular_series names series ->
  all_numeric rt series = true ->
  (List.length series <= 20)%nat ->
  features (self s) = default_features ->
  fst (train rt pad symbol s)
  = Raise (PyException "ValueError"
             "Found array with 0 sample(s) (shape=(0, 5)) while a minimum of 1 is required by StandardScaler.").
Proof.
  intros Hget Hkey Hreg Hnum Hlen Hf.
  rewrite train_cases. cbv zeta.
  rewrite (fetch_keeps_self rt symbol s), Hf.
  destruct (fetch_regular_series rt symbol s Hget Hkey Hreg) as [Hdf ->].
  rewrite Hdf, (astype_float_regular rt Hreg Hnum).
  rewrite training_data_default. cbn [fst snd].
  rewrite removelast_short; [reflexivity |].
  pose proof (length_prepare_features_le pad (map (bar_of_record rt) series)) as Hle.
  rewrite length_map in Hle. lia.
Qed.

Lemma train_needs_21_bars_witness :
  let rt := Samples.runtime (Return zero) (Return (Samples.series_response 2)) in
  fst (train rt false "AAPL" Samples.state0)
  = Raise (PyException "ValueError"
             "Found array with 0 sample(s) (shape=(0, 5)) while a minimum of 1 is required by StandardScaler.").
Proof.
  intros rt.
  refine (@train_needs_21_bars rt false "AAPL" Samples.state0
            (Samples.series_response 2) (map fst (Samples.record "7" "3"))
            [("0", Samples.record "7" "3"); ("1", Samples.record "7" "3")]%string
            eq_refl eq_refl _ eq_refl _ eq_refl).
  - unfold regular_series. repeat split.
    + discriminate.
    + repeat constructor; cbn; intuition discriminate.
    + repeat constructor; cbn; intuition discriminate.
    + intros r [<- | [<- | []]]; reflexivity.
  - cbn. lia.
Defined.

Lemma check_array_rejects_infinity (estimator : string) (allow_nan : bool)
    (n : nat) (X : matrix) (row : list float) :
  In row X -> existsb isinf row = true ->
  exists msg,
    Sklearn.check_array estimator allow_nan n X
    = Raise (PyException "ValueError" msg).
Proof.
  intros Hrow Hinf. unfold Sklearn.check_array.
  destruct (forallb _ X) eqn:E; cbn [negb]; [| eexists; reflexivity].
  exfalso. rewrite forallb_forall in E. specialize (E row Hrow).
  rewrite forallb_forall in E.
  apply existsb_exists in Hinf as (x & Hx & Hi). specialize (E x Hx).
  destruct x; try discriminate. cbn in E. now rewrite andb_false_r in E.
Qed.

(** An infinite close is a missing value to the rolling aggregates: it
    empties the windows of its own row and of the nineteen rows after it.
    Here rows 19 to 24 are retained; row 24, with its infinite [open], is
    the last one, takes no part in the training set, and [train] returns. *)
Example train_infinite_close_scenario :
  let rt := MoreSamples.runtime
              (Return (MoreSamples.response_of MoreSamples.inf_close_series)) in
  let df := map (bar_of_record rt) MoreSamples.inf_close_series in
  fst (fetch_historical_data rt "AAPL" Samples.state0) = Return df
  /\ map (fun r => ts (base r)) (prepare_features false df)
     = ["19"; "20"; "21"; "22"; "23"; "24"]%string
  /\ fst (train rt false "AAPL" Samples.state0) = Return tt.
Proof. vm_compute. repeat split. Qed.

(** X13: [dropna] keeps infinite values, and the scaler rejects them: when
    a retained row other than the last holds an infinite [open], [high],
    [low], [close] or [volume], [train] fails with a [ValueError]. *)
Theorem train_rejects_infinite (rt : Runtime) (pad : bool) (symbol : string)
    (s : pstate) (df : DataFrame) (r : feature_row) :
  fst (fetch_historical_data rt symbol s) = Return df ->
  features (self s) = default_features ->
  In r (removelast (prepare_features pad df)) ->
  existsb isinf (base_values (base r)) = true ->
  exists msg,
    fst (train rt pad symbol s) = Raise (PyException "ValueError" msg).
Proof.
  intros Hdf Hf Hr Hinf.
  rewrite train_cases. cbv zeta.
  rewrite (fetch_keeps_self rt symbol s), Hf, Hdf.
  rewrite training_data_default. cbn [fst snd].
  unfold Sklearn.fit_transform.
  destruct (@check_array_rejects_infinity "StandardScaler" true
              (List.length default_features)
              (map (fun r => base_values (base r))
                 (removelast (prepare_features pad df)))
              (base_values (base r))) as [msg ->]; trivial.
  - apply in_map_iff. now exists r.
  - now exists msg.
Qed.

Lemma train_rejects_infinite_witness :
  let rt := MoreSamples.runtime
              (Return (MoreSamples.response_of MoreSamples.inf_open_series)) in
  let df := map (bar_of_record rt) MoreSamples.inf_open_series in
  fst (fetch_historical_data rt "AAPL" Samples.state0) = Return df
  /\ exists r msg,
       In r (removelast (prepare_features false df))
       /\ existsb isinf (base_values (base r)) = true
       /\ fst (train rt false "AAPL" Samples.state0)
          = Raise (PyException "ValueError" msg).
Proof.
  intros rt df.
  assert (H1 : fst (fetch_historical_data rt "AAPL" Samples.state0) = Return df)
    by (vm_compute; reflexivity).
  split; [exact H1 |].
  assert (H2 : exists r, In r (removelast (prepare_features false df))
                         /\ existsb isinf (base_values (base r)) = true).
  { eexists. split; [vm_compute; left; reflexivity | vm_compute; reflexivity]. }
  destruct H2 as (r & Hr & Hinf).
  destruct (@train_rejects_infinite rt false "AAPL" Samples.state0 df r
              H1 eq_refl Hr Hinf) as [msg Hmsg].
  exists r, msg. split; [exact Hr |]. split; [exact Hinf | exact Hmsg].
Defined.
